(** * The SDL2 game window: input and event normalisation

    A shallow embedding of [src/window_sdl2.cpp]: the scancode mapper
    [getKeyMinecraft], the event handlers of [SDL2GameWindow] and the poll
    loop [pollEvents], followed by the properties of the event layer.

    Conventions of the model.
    - C++ integers ([int], [Sint32], [Uint8], the underlying value of an
      [enum class]) are [Z].
    - The member functions of the window read and write two fields only,
      [captured] and [gamepad.count]; they are modelled in a small monad that
      threads the window, records every outgoing call (engine callbacks,
      [printf], the SDL requests) in program order and propagates a C++
      exception.
    - The constants of SDL's headers are given with the values of SDL 2. *)

From Stdlib Require Import ZArith List Bool Lia QArith.
Import ListNotations.
Local Open Scope Z_scope.

(** ** SDL scancodes ([SDL_scancode.h]) *)

Definition SDL_SCANCODE_A : Z := 4.
Definition SDL_SCANCODE_Z : Z := 29.
Definition SDL_SCANCODE_1 : Z := 30.
Definition SDL_SCANCODE_2 : Z := 31.
Definition SDL_SCANCODE_3 : Z := 32.
Definition SDL_SCANCODE_4 : Z := 33.
Definition SDL_SCANCODE_5 : Z := 34.
Definition SDL_SCANCODE_6 : Z := 35.
Definition SDL_SCANCODE_7 : Z := 36.
Definition SDL_SCANCODE_8 : Z := 37.
Definition SDL_SCANCODE_9 : Z := 38.
Definition SDL_SCANCODE_0 : Z := 39.
Definition SDL_SCANCODE_RETURN : Z := 40.
Definition SDL_SCANCODE_ESCAPE : Z := 41.
Definition SDL_SCANCODE_BACKSPACE : Z := 42.
Definition SDL_SCANCODE_TAB : Z := 43.
Definition SDL_SCANCODE_SPACE : Z := 44.
Definition SDL_SCANCODE_MINUS : Z := 45.
Definition SDL_SCANCODE_EQUALS : Z := 46.
Definition SDL_SCANCODE_LEFTBRACKET : Z := 47.
Definition SDL_SCANCODE_RIGHTBRACKET : Z := 48.
Definition SDL_SCANCODE_BACKSLASH : Z := 49.
Definition SDL_SCANCODE_SEMICOLON : Z := 51.
Definition SDL_SCANCODE_COMMA : Z := 54.
Definition SDL_SCANCODE_PERIOD : Z := 55.
Definition SDL_SCANCODE_SLASH : Z := 56.
Definition SDL_SCANCODE_CAPSLOCK : Z := 57.
Definition SDL_SCANCODE_INSERT : Z := 73.
Definition SDL_SCANCODE_HOME : Z := 74.
Definition SDL_SCANCODE_PAGEUP : Z := 75.
Definition SDL_SCANCODE_DELETE : Z := 76.
Definition SDL_SCANCODE_END : Z := 77.
Definition SDL_SCANCODE_PAGEDOWN : Z := 78.
Definition SDL_SCANCODE_RIGHT : Z := 79.
Definition SDL_SCANCODE_LEFT : Z := 80.
Definition SDL_SCANCODE_DOWN : Z := 81.
Definition SDL_SCANCODE_UP : Z := 82.
Definition SDL_SCANCODE_KP_MINUS : Z := 86.
Definition SDL_SCANCODE_KP_PLUS : Z := 87.
Definition SDL_SCANCODE_KP_1 : Z := 89.
Definition SDL_SCANCODE_KP_2 : Z := 90.
Definition SDL_SCANCODE_KP_3 : Z := 91.
Definition SDL_SCANCODE_KP_4 : Z := 92.
Definition SDL_SCANCODE_KP_5 : Z := 93.
Definition SDL_SCANCODE_KP_6 : Z := 94.
Definition SDL_SCANCODE_KP_7 : Z := 95.
Definition SDL_SCANCODE_KP_8 : Z := 96.
Definition SDL_SCANCODE_KP_9 : Z := 97.
Definition SDL_SCANCODE_KP_0 : Z := 98.
Definition SDL_SCANCODE_MENU : Z := 118.
Definition SDL_SCANCODE_LCTRL : Z := 224.
Definition SDL_SCANCODE_LSHIFT : Z := 225.
Definition SDL_SCANCODE_LALT : Z := 226.
Definition SDL_SCANCODE_RCTRL : Z := 228.
Definition SDL_SCANCODE_RSHIFT : Z := 229.
Definition SDL_SCANCODE_RALT : Z := 230.
Definition SDL_SCANCODE_AC_HOME : Z := 269.
Definition SDL_SCANCODE_AC_BACK : Z := 270.

(** ** The engine's key codes

    [KeyCode] is an [enum class] declared in a header of the repository that
    is not among the sources under study.  The mapper converts between it and
    [int] in both directions ([(KeyCode)(keyCode+61)], [(int)key]), so a key
    code is modelled by its integer value, and the value of every enumerator
    the source names is a parameter of the development. *)

Definition KeyCode : Type := Z.

Module KeyCode.

Class Enum : Type := {
  UNKNOWN : KeyCode;
  NUM_0 : KeyCode; NUM_1 : KeyCode; NUM_2 : KeyCode; NUM_3 : KeyCode;
  NUM_4 : KeyCode; NUM_5 : KeyCode; NUM_6 : KeyCode; NUM_7 : KeyCode;
  NUM_8 : KeyCode; NUM_9 : KeyCode;
  BACKSLASH : KeyCode; HOME : KeyCode; BACK : KeyCode; BACKSPACE : KeyCode;
  CAPS_LOCK : KeyCode; COMMA : KeyCode; DELETE : KeyCode; DOWN : KeyCode;
  END : KeyCode; EQUAL : KeyCode; ESCAPE : KeyCode; INSERT : KeyCode;
  NUMPAD_0 : KeyCode; NUMPAD_1 : KeyCode; NUMPAD_2 : KeyCode;
  NUMPAD_3 : KeyCode; NUMPAD_4 : KeyCode; NUMPAD_5 : KeyCode;
  NUMPAD_6 : KeyCode; NUMPAD_7 : KeyCode; NUMPAD_8 : KeyCode;
  NUMPAD_9 : KeyCode;
  NUMPAD_SUBTRACT : KeyCode; NUMPAD_ADD : KeyCode;
  LEFT_ALT : KeyCode; LEFT_CTRL : KeyCode; LEFT : KeyCode;
  LEFT_BRACKET : KeyCode; LEFT_SHIFT : KeyCode; MENU : KeyCode;
  MINUS : KeyCode; PAGE_DOWN : KeyCode; PAGE_UP : KeyCode; PERIOD : KeyCode;
  RIGHT_ALT : KeyCode; RIGHT_CTRL : KeyCode; RIGHT : KeyCode;
  RIGHT_BRACKET : KeyCode; RIGHT_SHIFT : KeyCode; SEMICOLON : KeyCode;
  SLASH : KeyCode; SPACE : KeyCode; TAB : KeyCode;
  ENTER : KeyCode
}.

End KeyCode.

(** ** Scancode mapper *)

Section ScancodeMapper.

Context {keys : KeyCode.Enum}.

(** [KeyCode SDL2GameWindow::getKeyMinecraft(int keyCode)].  The [switch] is
    read in the order of its labels; C++ requires the labels of one [switch]
    to be pairwise different, so the order does not matter.  The range label
    [SDL_SCANCODE_A ... SDL_SCANCODE_Z] is the GNU case range. *)
Definition getKeyMinecraft (keyCode : Z) : KeyCode :=
  if keyCode =? SDL_SCANCODE_0 then KeyCode.NUM_0
  else if keyCode =? SDL_SCANCODE_1 then KeyCode.NUM_1
  else if keyCode =? SDL_SCANCODE_2 then KeyCode.NUM_2
  else if keyCode =? SDL_SCANCODE_3 then KeyCode.NUM_3
  else if keyCode =? SDL_SCANCODE_4 then KeyCode.NUM_4
  else if keyCode =? SDL_SCANCODE_5 then KeyCode.NUM_5
  else if keyCode =? SDL_SCANCODE_6 then KeyCode.NUM_6
  else if keyCode =? SDL_SCANCODE_7 then KeyCode.NUM_7
  else if keyCode =? SDL_SCANCODE_8 then KeyCode.NUM_8
  else if keyCode =? SDL_SCANCODE_9 then KeyCode.NUM_9
  else if (SDL_SCANCODE_A <=? keyCode) && (keyCode <=? SDL_SCANCODE_Z)
       then keyCode + 61
  else if keyCode =? SDL_SCANCODE_BACKSLASH then KeyCode.BACKSLASH
  else if keyCode =? SDL_SCANCODE_AC_HOME then KeyCode.HOME
  else if keyCode =? SDL_SCANCODE_AC_BACK then KeyCode.BACK
  else if keyCode =? SDL_SCANCODE_BACKSPACE then KeyCode.BACKSPACE
  else if keyCode =? SDL_SCANCODE_CAPSLOCK then KeyCode.CAPS_LOCK
  else if keyCode =? SDL_SCANCODE_COMMA then KeyCode.COMMA
  else if keyCode =? SDL_SCANCODE_DELETE then KeyCode.DELETE
  else if keyCode =? SDL_SCANCODE_DOWN then KeyCode.DOWN
  else if keyCode =? SDL_SCANCODE_END then KeyCode.END
  else if keyCode =? SDL_SCANCODE_EQUALS then KeyCode.EQUAL
  else if keyCode =? SDL_SCANCODE_ESCAPE then KeyCode.ESCAPE
  else if keyCode =? SDL_SCANCODE_HOME then KeyCode.HOME
  else if keyCode =? SDL_SCANCODE_INSERT then KeyCode.INSERT
  else if keyCode =? SDL_SCANCODE_KP_0 then KeyCode.NUMPAD_0
  else if keyCode =? SDL_SCANCODE_KP_1 then KeyCode.NUMPAD_1
  else if keyCode =? SDL_SCANCODE_KP_2 then KeyCode.NUMPAD_2
  else if keyCode =? SDL_SCANCODE_KP_3 then KeyCode.NUMPAD_3
  else if keyCode =? SDL_SCANCODE_KP_4 then KeyCode.NUMPAD_4
  else if keyCode =? SDL_SCANCODE_KP_5 then KeyCode.NUMPAD_5
  else if keyCode =? SDL_SCANCODE_KP_6 then KeyCode.NUMPAD_6
  else if keyCode =? SDL_SCANCODE_KP_7 then KeyCode.NUMPAD_7
  else if keyCode =? SDL_SCANCODE_KP_8 then KeyCode.NUMPAD_8
  else if keyCode =? SDL_SCANCODE_KP_9 then KeyCode.NUMPAD_9
  else if keyCode =? SDL_SCANCODE_KP_MINUS then KeyCode.NUMPAD_SUBTRACT
  else if keyCode =? SDL_SCANCODE_KP_PLUS then KeyCode.NUMPAD_ADD
  else if keyCode =? SDL_SCANCODE_LALT then KeyCode.LEFT_ALT
  else if keyCode =? SDL_SCANCODE_LCTRL then KeyCode.LEFT_CTRL
  else if keyCode =? SDL_SCANCODE_LEFT then KeyCode.LEFT
  else if keyCode =? SDL_SCANCODE_LEFTBRACKET then KeyCode.LEFT_BRACKET
  else if keyCode =? SDL_SCANCODE_LSHIFT then KeyCode.LEFT_SHIFT
  else if keyCode =? SDL_SCANCODE_MENU then KeyCode.MENU
  else if keyCode =? SDL_SCANCODE_MINUS then KeyCode.MINUS
  else if keyCode =? SDL_SCANCODE_PAGEDOWN then KeyCode.PAGE_DOWN
  else if keyCode =? SDL_SCANCODE_PAGEUP then KeyCode.PAGE_UP
  else if keyCode =? SDL_SCANCODE_PERIOD then KeyCode.PERIOD
  else if keyCode =? SDL_SCANCODE_RALT then KeyCode.RIGHT_ALT
  else if keyCode =? SDL_SCANCODE_RCTRL then KeyCode.RIGHT_CTRL
  else if keyCode =? SDL_SCANCODE_RIGHT then KeyCode.RIGHT
  else if keyCode =? SDL_SCANCODE_RIGHTBRACKET then KeyCode.RIGHT_BRACKET
  else if keyCode =? SDL_SCANCODE_RSHIFT then KeyCode.RIGHT_SHIFT
  else if keyCode =? SDL_SCANCODE_SEMICOLON then KeyCode.SEMICOLON
  else if keyCode =? SDL_SCANCODE_SLASH then KeyCode.SLASH
  else if keyCode =? SDL_SCANCODE_SPACE then KeyCode.SPACE
  else if keyCode =? SDL_SCANCODE_TAB then KeyCode.TAB
  else KeyCode.UNKNOWN.

(** The ten digit scancodes, in the order 0..9, and the numeric key codes
    in the same order. *)
Definition digit_scancodes : list Z :=
  [ SDL_SCANCODE_0; SDL_SCANCODE_1; SDL_SCANCODE_2; SDL_SCANCODE_3;
    SDL_SCANCODE_4; SDL_SCANCODE_5; SDL_SCANCODE_6; SDL_SCANCODE_7;
    SDL_SCANCODE_8; SDL_SCANCODE_9 ].

Definition numeric_keycodes : list KeyCode :=
  [ KeyCode.NUM_0; KeyCode.NUM_1; KeyCode.NUM_2; KeyCode.NUM_3;
    KeyCode.NUM_4; KeyCode.NUM_5; KeyCode.NUM_6; KeyCode.NUM_7;
    KeyCode.NUM_8; KeyCode.NUM_9 ].

(** A scancode of the letter range [SDL_SCANCODE_A ... SDL_SCANCODE_Z]. *)
Definition letter_scancode (keyCode : Z) : Prop :=
  SDL_SCANCODE_A <= keyCode <= SDL_SCANCODE_Z.

(** The scancodes that have a [case] label of their own, besides the digits:
    punctuation, navigation, modifier and numpad keys. *)
Definition listed_scancodes : list Z :=
  [ SDL_SCANCODE_BACKSLASH; SDL_SCANCODE_AC_HOME; SDL_SCANCODE_AC_BACK;
    SDL_SCANCODE_BACKSPACE; SDL_SCANCODE_CAPSLOCK; SDL_SCANCODE_COMMA;
    SDL_SCANCODE_DELETE; SDL_SCANCODE_DOWN; SDL_SCANCODE_END;
    SDL_SCANCODE_EQUALS; SDL_SCANCODE_ESCAPE; SDL_SCANCODE_HOME;
    SDL_SCANCODE_INSERT; SDL_SCANCODE_KP_0; SDL_SCANCODE_KP_1;
    SDL_SCANCODE_KP_2; SDL_SCANCODE_KP_3; SDL_SCANCODE_KP_4;
    SDL_SCANCODE_KP_5; SDL_SCANCODE_KP_6; SDL_SCANCODE_KP_7;
    SDL_SCANCODE_KP_8; SDL_SCANCODE_KP_9; SDL_SCANCODE_KP_MINUS;
    SDL_SCANCODE_KP_PLUS; SDL_SCANCODE_LALT; SDL_SCANCODE_LCTRL;
    SDL_SCANCODE_LEFT; SDL_SCANCODE_LEFTBRACKET; SDL_SCANCODE_LSHIFT;
    SDL_SCANCODE_MENU; SDL_SCANCODE_MINUS; SDL_SCANCODE_PAGEDOWN;
    SDL_SCANCODE_PAGEUP; SDL_SCANCODE_PERIOD; SDL_SCANCODE_RALT;
    SDL_SCANCODE_RCTRL; SDL_SCANCODE_RIGHT; SDL_SCANCODE_RIGHTBRACKET;
    SDL_SCANCODE_RSHIFT; SDL_SCANCODE_SEMICOLON; SDL_SCANCODE_SLASH;
    SDL_SCANCODE_SPACE; SDL_SCANCODE_TAB ].

(** Covered by an explicit case: a digit, a letter or a listed key. *)
Definition covered (keyCode : Z) : Prop :=
  In keyCode digit_scancodes \/ letter_scancode keyCode
  \/ In keyCode listed_scancodes.

End ScancodeMapper.

(** ** The callback surface and the other outgoing calls *)

Module KeyAction.
Inductive t : Set := PRESS | REPEAT | RELEASE.
End KeyAction.

Module MouseButtonAction.
Inductive t : Set := PRESS | RELEASE.
End MouseButtonAction.

Module GamepadAxisId.
Inductive t : Set :=
  LEFT_X | LEFT_Y | RIGHT_X | RIGHT_Y | LEFT_TRIGGER | RIGHT_TRIGGER.
End GamepadAxisId.

Module GamepadButtonId.
Inductive t : Set :=
  A | B | X | Y | BACK | START | GUIDE | LEFT_STICK | RIGHT_STICK | LB | RB
  | DPAD_UP | DPAD_DOWN | DPAD_LEFT | DPAD_RIGHT.
End GamepadButtonId.

(** The lines the handlers print, named after their format strings. *)
Inductive Diagnostic : Set :=
  | CouldntOpenController
      (* "SDL2GameWindow: Couldn't open controller! - %s\n" *)
  | ControllerOpened (which : Z)
      (* "SDL2GameWindow: Controller %d opened: %s!\n" *)
  | RemovedWhenNoneConnected
      (* "SDL2GameWindow: Error - controller removed when none were known
         to be connected" *)
  | ControllerRemoved (which : Z)
      (* "SDL2GameWindow: Controller %d removed!\n" *)
  | NowConnectedJoysticks
      (* "SDL2GameWindow: There are now %d connected joysticks\n" *).

(** One outgoing call.  The arguments of [onMouseScroll] are [double]s in
    C++; every value the source passes is an integer ([Sint32] deflections
    and the literals -1.0, 0.0, 1.0, -1, 1), which a [double] holds exactly,
    so they are kept as integers.  The axis value is [value / 32768] with
    [value] an [Sint16], exact in a [double] as well, kept as a fraction.
    A text payload is the list of the bytes of the [std::string]. *)
Inductive Call : Type :=
  | onKeyboard (key : KeyCode) (action : KeyAction.t)
  | onKeyboardText (text : list Z)
  | onMouseButton (x y : Z) (button : Z) (action : MouseButtonAction.t)
  | onMouseScroll (x y dx dy : Z)
  | onMousePosition (x y : Z)
  | onMouseRelativePosition (x y : Z)
  | onGamepadState (gamepad : Z) (connected : bool)
  | onGamepadAxis (gamepad : Z) (axis : GamepadAxisId.t) (value : Q)
  | onGamepadButton (gamepad : Z) (btn : GamepadButtonId.t) (pressed : bool)
  | printf (line : Diagnostic)
  | SDL_CaptureMouse (enabled : bool)
  | SDL_Quit.

(** ** The window and the monad of its member functions *)

Record GamepadData : Set := { count : Z }.

(** The two fields of [SDL2GameWindow] the event layer uses.  [count] is an
    [int]; the model computes in [Z], which agrees with [int] arithmetic as
    long as the counter stays below [INT_MAX] (see [count_bounded_by_events]
    below: the counter never exceeds the number of events handled). *)
Record SDL2GameWindow : Set := {
  captured : bool;
  gamepad : GamepadData
}.

Definition INT_MAX : Z := 2147483647.

(** How a member function ends: it returns, or an exception leaves it
    (the only one the event layer can raise is the [std::range_error] of
    [std::wstring_convert::to_bytes]). *)
Inductive Completion (T : Type) : Type :=
  | Returned (value : T)
  | Thrown.
Arguments Returned {T} value.
Arguments Thrown {T}.

Record Run (T : Type) : Type := {
  calls : list Call;
  window : SDL2GameWindow;
  result : Completion T
}.
Arguments calls {T} r.
Arguments window {T} r.
Arguments result {T} r.

Definition M (T : Type) : Type := SDL2GameWindow -> Run T.

Definition ret {T : Type} (value : T) : M T :=
  fun w => {| calls := []; window := w; result := Returned value |}.

Definition bind {T U : Type} (m : M T) (k : T -> M U) : M U :=
  fun w =>
    let r := m w in
    match result r with
    | Returned value =>
        let r' := k value (window r) in
        {| calls := calls r ++ calls r';
           window := window r';
           result := result r' |}
    | Thrown => {| calls := calls r; window := window r; result := Thrown |}
    end.

Declare Scope window_scope.
Delimit Scope window_scope with window.
Notation "x <- m ;; k" := (bind m (fun x => k))
  (at level 61, m at next level, right associativity) : window_scope.
Notation "m ;; k" := (bind m (fun _ => k))
  (at level 61, right associativity) : window_scope.
Local Open Scope window_scope.

Definition call (c : Call) : M unit :=
  fun w => {| calls := [c]; window := w; result := Returned tt |}.

Definition throw {T : Type} : M T :=
  fun w => {| calls := []; window := w; result := Thrown |}.

Definition get_captured : M bool :=
  fun w => {| calls := []; window := w; result := Returned (captured w) |}.

Definition set_captured (b : bool) : M unit :=
  fun w => {| calls := [];
              window := {| captured := b; gamepad := gamepad w |};
              result := Returned tt |}.

Definition get_count : M Z :=
  fun w => {| calls := []; window := w;
              result := Returned (count (gamepad w)) |}.

Definition set_count (n : Z) : M unit :=
  fun w => {| calls := [];
              window := {| captured := captured w;
                           gamepad := {| count := n |} |};
              result := Returned tt |}.

(** The window as the constructor leaves it: [captured = false], and
    [initSDL] sets [gamepad.count = 0]. *)
Definition new_window : SDL2GameWindow :=
  {| captured := false; gamepad := {| count := 0 |} |}.

(** ** SDL events

    Each record keeps the fields its handler reads.  The [type] field of an
    event is restricted to the event types SDL stores in that member of the
    [SDL_Event] union, so every value below is an event SDL can deliver. *)

Definition SDL_RELEASED : Z := 0.
Definition SDL_PRESSED : Z := 1.

Inductive ControllerDeviceEventType : Set :=
  | SDL_CONTROLLERDEVICEADDED
  | SDL_CONTROLLERDEVICEREMOVED
  | SDL_CONTROLLERDEVICEREMAPPED.

Record SDL_ControllerDeviceEvent : Set := {
  cdevice_type : ControllerDeviceEventType;
  which : Z
}.

Definition SDL_CONTROLLER_AXIS_LEFTX : Z := 0.
Definition SDL_CONTROLLER_AXIS_LEFTY : Z := 1.
Definition SDL_CONTROLLER_AXIS_RIGHTX : Z := 2.
Definition SDL_CONTROLLER_AXIS_RIGHTY : Z := 3.
Definition SDL_CONTROLLER_AXIS_TRIGGERLEFT : Z := 4.
Definition SDL_CONTROLLER_AXIS_TRIGGERRIGHT : Z := 5.

Record SDL_ControllerAxisEvent : Set := {
  axis : Z;
  axis_value : Z
}.

Definition SDL_CONTROLLER_BUTTON_A : Z := 0.
Definition SDL_CONTROLLER_BUTTON_B : Z := 1.
Definition SDL_CONTROLLER_BUTTON_X : Z := 2.
Definition SDL_CONTROLLER_BUTTON_Y : Z := 3.
Definition SDL_CONTROLLER_BUTTON_BACK : Z := 4.
Definition SDL_CONTROLLER_BUTTON_GUIDE : Z := 5.
Definition SDL_CONTROLLER_BUTTON_START : Z := 6.
Definition SDL_CONTROLLER_BUTTON_LEFTSTICK : Z := 7.
Definition SDL_CONTROLLER_BUTTON_RIGHTSTICK : Z := 8.
Definition SDL_CONTROLLER_BUTTON_LEFTSHOULDER : Z := 9.
Definition SDL_CONTROLLER_BUTTON_RIGHTSHOULDER : Z := 10.
Definition SDL_CONTROLLER_BUTTON_DPAD_UP : Z := 11.
Definition SDL_CONTROLLER_BUTTON_DPAD_DOWN : Z := 12.
Definition SDL_CONTROLLER_BUTTON_DPAD_LEFT : Z := 13.
Definition SDL_CONTROLLER_BUTTON_DPAD_RIGHT : Z := 14.

Record SDL_ControllerButtonEvent : Set := {
  cbutton : Z;
  cbutton_state : Z
}.

Record SDL_MouseMotionEvent : Set := {
  motion_x : Z;
  motion_y : Z;
  xrel : Z;
  yrel : Z
}.

Record SDL_MouseWheelEvent : Set := {
  wheel_x : Z;
  wheel_y : Z
}.

Record SDL_MouseButtonEvent : Set := {
  click_x : Z;
  click_y : Z;
  button : Z;
  click_state : Z
}.

Inductive KeyboardEventType : Set := SDL_KEYDOWN | SDL_KEYUP.

Record SDL_KeyboardEvent : Set := {
  key_type : KeyboardEventType;
  state : Z;
  repeat : Z;
  scancode : Z
}.

(** What one successful [SDL_PollEvent] hands to the loop.  A device event
    comes with the answer [SDL_GameControllerOpen] gives while the event is
    handled ([true]: a controller, [false]: [NULL]); the two button event
    types of a device share a handler that does not read the type. *)
Inductive SDL_Event : Set :=
  | cdevice (e : SDL_ControllerDeviceEvent) (controller : bool)
  | caxis (e : SDL_ControllerAxisEvent)
  | cbutton_event (e : SDL_ControllerButtonEvent)
  | motion (e : SDL_MouseMotionEvent)
  | wheel (e : SDL_MouseWheelEvent)
  | button_event (e : SDL_MouseButtonEvent)
  | key (e : SDL_KeyboardEvent)
  | SDL_QUIT
  | other_event.

(** ** Text conversion

    [std::wstring_convert<std::codecvt_utf8<char32_t>, char32_t>::to_bytes]
    applied to one character. *)

(** The UTF-8 encoding of a code point below [0x110000]. *)
Definition utf8 (c : Z) : list Z :=
  if c <? 0x80 then [c]
  else if c <? 0x800 then
    [Z.lor 0xC0 (Z.shiftr c 6); Z.lor 0x80 (Z.land c 0x3F)]
  else if c <? 0x10000 then
    [Z.lor 0xE0 (Z.shiftr c 12);
     Z.lor 0x80 (Z.land (Z.shiftr c 6) 0x3F);
     Z.lor 0x80 (Z.land c 0x3F)]
  else
    [Z.lor 0xF0 (Z.shiftr c 18);
     Z.lor 0x80 (Z.land (Z.shiftr c 12) 0x3F);
     Z.lor 0x80 (Z.land (Z.shiftr c 6) 0x3F);
     Z.lor 0x80 (Z.land c 0x3F)].

(** [cvt.to_bytes((int)key)]: the [int] converts to [char32_t] modulo 2^32;
    a character above the largest code point makes the conversion fail, and
    a converter built without an error string then throws.  (Library
    versions differ on the surrogates D800..DFFF, which are encoded here;
    nothing below depends on them.) *)
Definition to_bytes (c : Z) : M (list Z) :=
  let wchar := c mod 2 ^ 32 in
  if wchar <=? 0x10FFFF then ret (utf8 wchar) else throw.

(** ** Event handlers *)

Section EventLayer.

Context {keys : KeyCode.Enum}.

(** [SDL2GameWindow::handleControllerDeviceEvent].  [controller] tells
    whether [SDL_GameControllerOpen] returned a controller.  [finish] is the
    tail of the function, reached by the paths that do not [return]. *)
Definition handleControllerDeviceEvent
    (cdeviceevent : SDL_ControllerDeviceEvent) (controller : bool) : M unit :=
  let finish : M unit :=
    call (printf NowConnectedJoysticks) ;;
    call (onGamepadState 0
            match cdevice_type cdeviceevent with
            | SDL_CONTROLLERDEVICEADDED => true
            | _ => false
            end) in
  match cdevice_type cdeviceevent with
  | SDL_CONTROLLERDEVICEADDED =>
      n <- get_count ;;
      set_count (n + 1) ;;
      (if negb controller
       then call (printf CouldntOpenController)
       else call (printf (ControllerOpened (which cdeviceevent)))) ;;
      n' <- get_count ;;
      if n' >? 1 then ret tt else finish
  | SDL_CONTROLLERDEVICEREMOVED =>
      n <- get_count ;;
      if n <? 1 then call (printf RemovedWhenNoneConnected)
      else
        set_count (n - 1) ;;
        call (printf (ControllerRemoved (which cdeviceevent))) ;;
        n' <- get_count ;;
        if n' >? 0 then ret tt else finish
  | SDL_CONTROLLERDEVICEREMAPPED => ret tt
  end.

(** [SDL2GameWindow::handleControllerAxisEvent]. *)
Definition handleControllerAxisEvent
    (caxisevent : SDL_ControllerAxisEvent) : M unit :=
  let report (id : GamepadAxisId.t) : M unit :=
    let deflection : Q := Qmake (axis_value caxisevent) 32768 in
    call (onGamepadAxis 0 id deflection) in
  let a := axis caxisevent in
  if a =? SDL_CONTROLLER_AXIS_LEFTX then report GamepadAxisId.LEFT_X
  else if a =? SDL_CONTROLLER_AXIS_LEFTY then report GamepadAxisId.LEFT_Y
  else if a =? SDL_CONTROLLER_AXIS_RIGHTX then report GamepadAxisId.RIGHT_X
  else if a =? SDL_CONTROLLER_AXIS_RIGHTY then report GamepadAxisId.RIGHT_Y
  else if a =? SDL_CONTROLLER_AXIS_TRIGGERLEFT
       then report GamepadAxisId.LEFT_TRIGGER
  else if a =? SDL_CONTROLLER_AXIS_TRIGGERRIGHT
       then report GamepadAxisId.RIGHT_TRIGGER
  else ret tt.

(** [SDL2GameWindow::handleControllerButtonEvent]. *)
Definition handleControllerButtonEvent
    (cbuttonevent : SDL_ControllerButtonEvent) : M unit :=
  let report (btn : GamepadButtonId.t) : M unit :=
    call (onGamepadButton 0 btn (cbutton_state cbuttonevent =? SDL_PRESSED)) in
  let b := cbutton cbuttonevent in
  if b =? SDL_CONTROLLER_BUTTON_A then report GamepadButtonId.A
  else if b =? SDL_CONTROLLER_BUTTON_B then report GamepadButtonId.B
  else if b =? SDL_CONTROLLER_BUTTON_X then report GamepadButtonId.X
  else if b =? SDL_CONTROLLER_BUTTON_Y then report GamepadButtonId.Y
  else if b =? SDL_CONTROLLER_BUTTON_BACK then report GamepadButtonId.BACK
  else if b =? SDL_CONTROLLER_BUTTON_START then report GamepadButtonId.START
  else if b =? SDL_CONTROLLER_BUTTON_GUIDE then report GamepadButtonId.GUIDE
  else if b =? SDL_CONTROLLER_BUTTON_LEFTSTICK
       then report GamepadButtonId.LEFT_STICK
  else if b =? SDL_CONTROLLER_BUTTON_RIGHTSTICK
       then report GamepadButtonId.RIGHT_STICK
  else if b =? SDL_CONTROLLER_BUTTON_LEFTSHOULDER
       then report GamepadButtonId.LB
  else if b =? SDL_CONTROLLER_BUTTON_RIGHTSHOULDER
       then report GamepadButtonId.RB
  else if b =? SDL_CONTROLLER_BUTTON_DPAD_UP
       then report GamepadButtonId.DPAD_UP
  else if b =? SDL_CONTROLLER_BUTTON_DPAD_DOWN
       then report GamepadButtonId.DPAD_DOWN
  else if b =? SDL_CONTROLLER_BUTTON_DPAD_LEFT
       then report GamepadButtonId.DPAD_LEFT
  else if b =? SDL_CONTROLLER_BUTTON_DPAD_RIGHT
       then report GamepadButtonId.DPAD_RIGHT
  else ret tt.

(** [SDL2GameWindow::handleMouseWheelEvent]. *)
Definition handleMouseWheelEvent (wheelevent : SDL_MouseWheelEvent) : M unit :=
  if wheel_x wheelevent <? 0 then
    call (onMouseScroll (wheel_x wheelevent) (wheel_y wheelevent) (-1) 0)
  else if wheel_x wheelevent >? 0 then
    call (onMouseScroll (wheel_x wheelevent) (wheel_y wheelevent) 1 0)
  else if wheel_y wheelevent <? 0 then
    call (onMouseScroll 0 0 0 (-1))
  else if wheel_y wheelevent >? 0 then
    call (onMouseScroll 0 0 0 1)
  else ret tt.

(** [SDL2GameWindow::handleMouseMotionEvent]. *)
Definition handleMouseMotionEvent
    (motionevent : SDL_MouseMotionEvent) : M unit :=
  c <- get_captured ;;
  if c then
    call (onMouseRelativePosition (xrel motionevent) (yrel motionevent))
  else
    call (onMousePosition (motion_x motionevent) (motion_y motionevent)).

(** [SDL2GameWindow::handleMouseClickEvent]. *)
Definition handleMouseClickEvent (clickevent : SDL_MouseButtonEvent) : M unit :=
  call (onMouseButton (click_x clickevent) (click_y clickevent)
          (button clickevent)
          (if click_state clickevent =? SDL_PRESSED
           then MouseButtonAction.PRESS else MouseButtonAction.RELEASE)).

(** The inner [switch (key)] of [handleKeyboardEvent].  No case ends in a
    [break], so control entering at a label runs every statement below it;
    one definition per entry point, each continuing with the next. *)
Definition text_from_default (key : KeyCode) : M unit :=
  bytes <- to_bytes key ;;
  call (onKeyboardText bytes).

Definition text_from_LEFT (key : KeyCode) : M unit :=
  call (onKeyboardText [0x1B]) ;; text_from_default key.

Definition text_from_ENTER (key : KeyCode) : M unit :=
  call (onKeyboardText [0x0A]) ;; text_from_LEFT key.

Definition text_from_DELETE (key : KeyCode) : M unit :=
  call (onKeyboardText [0x7F]) ;; text_from_ENTER key.

Definition text_from_BACKSPACE (key : KeyCode) : M unit :=
  call (onKeyboardText [0x08]) ;; text_from_DELETE key.

Definition text_switch (key : KeyCode) : M unit :=
  if key =? KeyCode.BACKSPACE then text_from_BACKSPACE key
  else if key =? KeyCode.DELETE then text_from_DELETE key
  else if key =? KeyCode.ENTER then text_from_ENTER key
  else if key =? KeyCode.LEFT then text_from_LEFT key
  else text_from_default key.

(** [SDL2GameWindow::handleKeyboardEvent]. *)
Definition handleKeyboardEvent (keyevent : SDL_KeyboardEvent) : M unit :=
  let key := getKeyMinecraft (scancode keyevent) in
  if negb (repeat keyevent =? 0) then
    call (onKeyboard key KeyAction.REPEAT)
  else if state keyevent =? SDL_PRESSED then
    text_switch key ;;
    call (onKeyboard key KeyAction.PRESS)
  else if state keyevent =? SDL_RELEASED then
    call (onKeyboard key KeyAction.RELEASE)
  else ret tt.

(** [SDL2GameWindow::setCursorDisabled]. *)
Definition setCursorDisabled (disabled : bool) : M unit :=
  set_captured disabled ;;
  call (SDL_CaptureMouse disabled).

(** The body of the loop of [pollEvents]: the [switch (event.type)].  The
    [SDL_KEYDOWN] case has no [break] and runs into the [SDL_KEYUP] case. *)
Definition dispatch (event : SDL_Event) : M unit :=
  match event with
  | cdevice e controller =>
      match cdevice_type e with
      | SDL_CONTROLLERDEVICEADDED | SDL_CONTROLLERDEVICEREMOVED =>
          handleControllerDeviceEvent e controller
      | SDL_CONTROLLERDEVICEREMAPPED => ret tt
      end
  | caxis e => handleControllerAxisEvent e
  | cbutton_event e => handleControllerButtonEvent e
  | motion e => handleMouseMotionEvent e
  | wheel e => handleMouseWheelEvent e
  | button_event e => handleMouseClickEvent e
  | key e =>
      match key_type e with
      | SDL_KEYDOWN => handleKeyboardEvent e ;; handleKeyboardEvent e
      | SDL_KEYUP => handleKeyboardEvent e
      end
  | SDL_QUIT => call SDL_Quit
  | other_event => ret tt
  end.

(** [SDL2GameWindow::pollEvents], on the events the successive calls of
    [SDL_PollEvent] return until it reports an empty queue. *)
Fixpoint pollEvents (queue : list SDL_Event) : M unit :=
  match queue with
  | [] => ret tt
  | event :: rest => dispatch event ;; pollEvents rest
  end.

(** *** Observations on a run *)

Definition is_onKeyboard (c : Call) : bool :=
  match c with onKeyboard _ _ => true | _ => false end.

Definition is_onKeyboardText (c : Call) : bool :=
  match c with onKeyboardText _ => true | _ => false end.

Definition is_onGamepadState (c : Call) : bool :=
  match c with onGamepadState _ _ => true | _ => false end.

Definition is_onMouseScroll (c : Call) : bool :=
  match c with onMouseScroll _ _ _ _ => true | _ => false end.

Definition is_position_callback (c : Call) : bool :=
  match c with
  | onMousePosition _ _ | onMouseRelativePosition _ _ => true
  | _ => false
  end.

(** The window with its counter replaced. *)
Definition with_count (w : SDL2GameWindow) (n : Z) : SDL2GameWindow :=
  {| captured := captured w; gamepad := {| count := n |} |}.

(** The line a connect event prints about opening the device. *)
Definition open_report (e : SDL_ControllerDeviceEvent) (controller : bool)
  : Call :=
  if controller then printf (ControllerOpened (which e))
  else printf CouldntOpenController.

(** The direction of a scroll call: its last two arguments. *)
Definition scroll_direction (c : Call) : option (Z * Z) :=
  match c with onMouseScroll _ _ dx dy => Some (dx, dy) | _ => None end.

(** The calls each event of a queue gives rise to, event by event, with the
    window as the previous events left it. *)
Fixpoint calls_per_event (queue : list SDL_Event) (w : SDL2GameWindow)
  : list (list Call) :=
  match queue with
  | [] => []
  | event :: rest =>
      let r := dispatch event w in
      calls r :: match result r with
                 | Returned _ => calls_per_event rest (window r)
                 | Thrown => []
                 end
  end.

End EventLayer.

(** Modelled from the spec: the header that declares [KeyCode] is missing
    from the sources and the spec fixes no numbering of the key codes, so
    the theorems below are stated for every numbering.  This one follows the
    virtual-key numbering that the offset 61 of the letter range points to
    (scancode 4 of the letter A goes to 65); it serves to instantiate the
    theorems at concrete inputs. *)
Definition virtual_key_codes : KeyCode.Enum := {|
  KeyCode.UNKNOWN := 0;
  KeyCode.NUM_0 := 48; KeyCode.NUM_1 := 49; KeyCode.NUM_2 := 50;
  KeyCode.NUM_3 := 51; KeyCode.NUM_4 := 52; KeyCode.NUM_5 := 53;
  KeyCode.NUM_6 := 54; KeyCode.NUM_7 := 55; KeyCode.NUM_8 := 56;
  KeyCode.NUM_9 := 57;
  KeyCode.BACKSLASH := 220; KeyCode.HOME := 36; KeyCode.BACK := 4;
  KeyCode.BACKSPACE := 8; KeyCode.CAPS_LOCK := 20; KeyCode.COMMA := 188;
  KeyCode.DELETE := 46; KeyCode.DOWN := 40; KeyCode.END := 35;
  KeyCode.EQUAL := 187; KeyCode.ESCAPE := 27; KeyCode.INSERT := 45;
  KeyCode.NUMPAD_0 := 96; KeyCode.NUMPAD_1 := 97; KeyCode.NUMPAD_2 := 98;
  KeyCode.NUMPAD_3 := 99; KeyCode.NUMPAD_4 := 100; KeyCode.NUMPAD_5 := 101;
  KeyCode.NUMPAD_6 := 102; KeyCode.NUMPAD_7 := 103; KeyCode.NUMPAD_8 := 104;
  KeyCode.NUMPAD_9 := 105;
  KeyCode.NUMPAD_SUBTRACT := 109; KeyCode.NUMPAD_ADD := 107;
  KeyCode.LEFT_ALT := 18; KeyCode.LEFT_CTRL := 17; KeyCode.LEFT := 37;
  KeyCode.LEFT_BRACKET := 219; KeyCode.LEFT_SHIFT := 16; KeyCode.MENU := 93;
  KeyCode.MINUS := 189; KeyCode.PAGE_DOWN := 34; KeyCode.PAGE_UP := 33;
  KeyCode.PERIOD := 190;
  KeyCode.RIGHT_ALT := 165; KeyCode.RIGHT_CTRL := 163; KeyCode.RIGHT := 39;
  KeyCode.RIGHT_BRACKET := 221; KeyCode.RIGHT_SHIFT := 161;
  KeyCode.SEMICOLON := 186; KeyCode.SLASH := 191; KeyCode.SPACE := 32;
  KeyCode.TAB := 9;
  KeyCode.ENTER := 13
|}.

(** ** Further observations

    Definitions used to state properties of the handlers beyond the ones
    above. *)

Section Observations.

Context {keys : KeyCode.Enum}.

(** The key codes the individually listed cases of [getKeyMinecraft] return,
    in the order of [listed_scancodes]. *)
Definition listed_keycodes : list KeyCode :=
  [ KeyCode.BACKSLASH; KeyCode.HOME; KeyCode.BACK; KeyCode.BACKSPACE;
    KeyCode.CAPS_LOCK; KeyCode.COMMA; KeyCode.DELETE; KeyCode.DOWN;
    KeyCode.END; KeyCode.EQUAL; KeyCode.ESCAPE; KeyCode.HOME;
    KeyCode.INSERT; KeyCode.NUMPAD_0; KeyCode.NUMPAD_1; KeyCode.NUMPAD_2;
    KeyCode.NUMPAD_3; KeyCode.NUMPAD_4; KeyCode.NUMPAD_5; KeyCode.NUMPAD_6;
    KeyCode.NUMPAD_7; KeyCode.NUMPAD_8; KeyCode.NUMPAD_9;
    KeyCode.NUMPAD_SUBTRACT; KeyCode.NUMPAD_ADD; KeyCode.LEFT_ALT;
    KeyCode.LEFT_CTRL; KeyCode.LEFT; KeyCode.LEFT_BRACKET;
    KeyCode.LEFT_SHIFT; KeyCode.MENU; KeyCode.MINUS; KeyCode.PAGE_DOWN;
    KeyCode.PAGE_UP; KeyCode.PERIOD; KeyCode.RIGHT_ALT; KeyCode.RIGHT_CTRL;
    KeyCode.RIGHT; KeyCode.RIGHT_BRACKET; KeyCode.RIGHT_SHIFT;
    KeyCode.SEMICOLON; KeyCode.SLASH; KeyCode.SPACE; KeyCode.TAB ].

(** Every enumerator a [return] of [getKeyMinecraft] names. *)
Definition returned_keycodes : list KeyCode :=
  KeyCode.UNKNOWN :: numeric_keycodes ++ listed_keycodes.

(** A key code the mapper can produce: a named one, or a value of the
    letter range. *)
Definition producible (k : KeyCode) : Prop :=
  In k returned_keycodes
  \/ SDL_SCANCODE_A + 61 <= k <= SDL_SCANCODE_Z + 61.

End Observations.

(** A Unicode scalar value: a code point that is not a surrogate.  These
    are the characters every implementation of [to_bytes] converts. *)
Definition code_point (k : Z) : Prop :=
  0 <= k < 0xD800 \/ 0xDFFF < k <= 0x10FFFF.

(** The [connected] arguments of the [onGamepadState] calls of a run. *)
Definition gamepad_states (l : list Call) : list bool :=
  flat_map (fun c => match c with
                     | onGamepadState _ connected => [connected]
                     | _ => []
                     end) l.

(** A list of flags that starts with [next] and changes at every step. *)
Fixpoint alternating (next : bool) (flags : list bool) : Prop :=
  match flags with
  | [] => True
  | flag :: rest => flag = next /\ alternating (negb next) rest
  end.

(** The gamepad slot a call names, for the three gamepad callbacks. *)
Definition gamepad_slot (c : Call) : option Z :=
  match c with
  | onGamepadState slot _ => Some slot
  | onGamepadAxis slot _ _ => Some slot
  | onGamepadButton slot _ _ => Some slot
  | _ => None
  end.

(** A UTF-8 continuation byte. *)
Definition continuation (b : Z) : bool := (0x80 <=? b) && (b <=? 0xBF).

(** A Unicode scalar value, as a test. *)
Definition scalar_value (v : Z) : bool :=
  ((0 <=? v) && (v <=? 0xD7FF)) || ((0xE000 <=? v) && (v <=? 0x10FFFF)).

(** A strict reader of one UTF-8 sequence, used to state what the handler
    delivers.  It accepts a sequence only when it is well formed: the lead
    byte tells the length, the other bytes are continuation bytes, the
    value needs that length (no overlong form), is no surrogate and is at
    most 0x10FFFF. *)
Definition utf8_decode (bytes : list Z) : option Z :=
  match bytes with
  | [b0] =>
      if (0 <=? b0) && (b0 <=? 0x7F) then Some b0 else None
  | [b0; b1] =>
      let v := (b0 - 0xC0) * 64 + (b1 - 0x80) in
      if (0xC0 <=? b0) && (b0 <=? 0xDF) && continuation b1
         && (0x80 <=? v)
      then Some v else None
  | [b0; b1; b2] =>
      let v := (b0 - 0xE0) * 4096 + (b1 - 0x80) * 64 + (b2 - 0x80) in
      if (0xE0 <=? b0) && (b0 <=? 0xEF) && continuation b1 && continuation b2
         && (0x800 <=? v) && scalar_value v
      then Some v else None
  | [b0; b1; b2; b3] =>
      let v := (b0 - 0xF0) * 262144 + (b1 - 0x80) * 4096
               + (b2 - 0x80) * 64 + (b3 - 0x80) in
      if (0xF0 <=? b0) && (b0 <=? 0xF4) && continuation b1 && continuation b2
         && continuation b3 && (0x10000 <=? v) && (v <=? 0x10FFFF)
      then Some v else None
  | _ => None
  end.

(** The payloads of the [onKeyboardText] calls of a run, in order. *)
Definition keyboard_texts (l : list Call) : list (list Z) :=
  flat_map (fun c => match c with
                     | onKeyboardText text => [text]
                     | _ => []
                     end) l.

(** * Properties *)

(** ** The scancode mapper *)

Section ScancodeMapperFacts.

Context {keys : KeyCode.Enum}.

Lemma In_of_existsb (x : Z) (l : list Z) :
  existsb (Z.eqb x) l = true -> In x l.
Proof.
  intros H. apply existsb_exists in H. destruct H as [y [Hy E]].
  apply Z.eqb_eq in E. now subst.
Qed.

Lemma existsb_of_In (x : Z) (l : list Z) :
  In x l -> existsb (Z.eqb x) l = true.
Proof.
  intros H. apply existsb_exists. exists x. split; [exact H |].
  apply Z.eqb_refl.
Qed.

Ltac labelled :=
  apply In_of_existsb; reflexivity.

Lemma digit_or_listed_covered (keyCode : Z) :
  In keyCode digit_scancodes \/ In keyCode listed_scancodes ->
  covered keyCode.
Proof. unfold covered. tauto. Qed.

(** Outside the case labels the [switch] is left without a [return] and
    the function ends in [return KeyCode::UNKNOWN]. *)
Lemma getKeyMinecraft_uncovered (keyCode : Z) :
  ~ covered keyCode -> getKeyMinecraft keyCode = KeyCode.UNKNOWN.
Proof.
  intros H.
  assert (Hr : (SDL_SCANCODE_A <=? keyCode) && (keyCode <=? SDL_SCANCODE_Z)
               = false).
  { apply not_true_is_false. intros E. apply andb_prop in E as [E1 E2].
    apply H. right. left. unfold letter_scancode. lia. }
  unfold getKeyMinecraft. rewrite Hr.
  repeat match goal with
  | |- context [keyCode =? ?c] =>
      destruct (Z.eqb_spec keyCode c) as [E | _];
      [ exfalso; apply H, digit_or_listed_covered; rewrite E;
        first [ left; labelled | right; labelled ]
      | ]
  end.
  reflexivity.
Qed.

Lemma getKeyMinecraft_letter (keyCode : Z) :
  letter_scancode keyCode -> getKeyMinecraft keyCode = keyCode + 61.
Proof.
  unfold letter_scancode, SDL_SCANCODE_A, SDL_SCANCODE_Z. intros H.
  unfold getKeyMinecraft.
  repeat match goal with
  | |- context [keyCode =? ?c] =>
      destruct (Z.eqb_spec keyCode c) as [E | _];
      [ exfalso; revert E; unfold c; lia | ]
  end.
  replace ((SDL_SCANCODE_A <=? keyCode) && (keyCode <=? SDL_SCANCODE_Z))
    with true; [reflexivity |].
  symmetry. apply andb_true_intro.
  unfold SDL_SCANCODE_A, SDL_SCANCODE_Z. split; apply Z.leb_le; lia.
Qed.

Lemma getKeyMinecraft_digits :
  map getKeyMinecraft digit_scancodes = numeric_keycodes.
Proof. reflexivity. Qed.

Lemma NoDup_map_injective {T U : Type} (f : T -> U) (l : list T) :
  NoDup (map f l) ->
  forall a b, In a l -> In b l -> f a = f b -> a = b.
Proof.
  induction l as [| x l IH]; simpl; intros ND a b Ha Hb E.
  - contradiction.
  - inversion ND as [| ? ? Hx ND']; subst.
    destruct Ha as [-> | Ha], Hb as [-> | Hb].
    + reflexivity.
    + exfalso. apply Hx. rewrite E. now apply in_map.
    + exfalso. apply Hx. rewrite <- E. now apply in_map.
    + now apply IH.
Qed.

(** C7.  The scancode mapping is a function of the scancode alone (it has
    no window argument and makes no call): every scancode has exactly one
    key code, equal scancodes have equal key codes, and a scancode covered
    by no explicit case (not a digit, not in the letter range, not one of
    the individually listed keys) yields [UNKNOWN]. *)
Theorem getKeyMinecraft_total_unknown_default (keyCode : Z) :
  (exists! k : KeyCode, getKeyMinecraft keyCode = k)
  /\ (forall keyCode' : Z,
        keyCode' = keyCode -> getKeyMinecraft keyCode' = getKeyMinecraft keyCode)
  /\ (~ covered keyCode -> getKeyMinecraft keyCode = KeyCode.UNKNOWN).
Proof.
  split; [| split].
  - exists (getKeyMinecraft keyCode). split; [reflexivity | auto].
  - now intros ? ->.
  - apply getKeyMinecraft_uncovered.
Qed.

(** C8.  When the ten numeric key codes are ten different values, the
    mapping sends each digit scancode to its own numeric key code and is a
    bijection from the digit scancodes onto [NUM_0 .. NUM_9]; on the
    twenty-six letter scancodes it is the constant offset 61, hence
    injective and order-preserving, and its image is the contiguous range
    of the values 65 .. 90. *)
Theorem digits_bijective_letters_contiguous :
  NoDup numeric_keycodes ->
  (map getKeyMinecraft digit_scancodes = numeric_keycodes
   /\ (forall a b : Z,
         In a digit_scancodes -> In b digit_scancodes ->
         getKeyMinecraft a = getKeyMinecraft b -> a = b)
   /\ (forall k : KeyCode,
         In k numeric_keycodes <->
         exists a, In a digit_scancodes /\ getKeyMinecraft a = k))
  /\ ((forall a : Z, letter_scancode a -> getKeyMinecraft a = a + 61)
      /\ (forall a b : Z,
            letter_scancode a -> letter_scancode b ->
            getKeyMinecraft a = getKeyMinecraft b -> a = b)
      /\ (forall a b : Z,
            letter_scancode a -> letter_scancode b ->
            (a < b <-> getKeyMinecraft a < getKeyMinecraft b))
      /\ (forall k : KeyCode,
            (exists a, letter_scancode a /\ getKeyMinecraft a = k) <->
            SDL_SCANCODE_A + 61 <= k <= SDL_SCANCODE_Z + 61)).
Proof.
  intros ND. split; [split; [| split] | split; [| split; [| split]]].
  - exact getKeyMinecraft_digits.
  - apply NoDup_map_injective. now rewrite getKeyMinecraft_digits.
  - intros k. rewrite <- getKeyMinecraft_digits, in_map_iff.
    split; intros [a [H1 H2]]; exists a; tauto.
  - exact getKeyMinecraft_letter.
  - intros a b Ha Hb. rewrite !getKeyMinecraft_letter by assumption. lia.
  - intros a b Ha Hb. rewrite !getKeyMinecraft_letter by assumption. lia.
  - intros k. split.
    + intros [a [Ha E]]. rewrite getKeyMinecraft_letter in E by assumption.
      unfold letter_scancode in Ha. lia.
    + intros Hk. exists (k - 61). assert (L : letter_scancode (k - 61)).
      { unfold letter_scancode. lia. }
      split; [exact L |]. rewrite getKeyMinecraft_letter by exact L. lia.
Qed.

End ScancodeMapperFacts.

(** ** The gamepad session *)

Section GamepadSessionFacts.

(** A connect event: the counter is incremented and the result of opening
    the device is printed, whatever it is; the state callback follows when
    the new count is not above 1. *)
Lemma handleControllerDeviceEvent_added
    (e : SDL_ControllerDeviceEvent) (controller : bool) (w : SDL2GameWindow) :
  cdevice_type e = SDL_CONTROLLERDEVICEADDED ->
  handleControllerDeviceEvent e controller w =
  {| calls := open_report e controller ::
              (if count (gamepad w) + 1 >? 1 then []
               else [printf NowConnectedJoysticks; onGamepadState 0 true]);
     window := with_count w (count (gamepad w) + 1);
     result := Returned tt |}.
Proof.
  intros E. unfold handleControllerDeviceEvent, open_report. rewrite E.
  destruct controller; cbn;
    destruct (count (gamepad w) + 1 >? 1); reflexivity.
Qed.

(** A disconnect event. *)
Lemma handleControllerDeviceEvent_removed
    (e : SDL_ControllerDeviceEvent) (controller : bool) (w : SDL2GameWindow) :
  cdevice_type e = SDL_CONTROLLERDEVICEREMOVED ->
  handleControllerDeviceEvent e controller w =
  if count (gamepad w) <? 1 then
    {| calls := [printf RemovedWhenNoneConnected];
       window := w;
       result := Returned tt |}
  else
    {| calls := printf (ControllerRemoved (which e)) ::
                (if count (gamepad w) - 1 >? 0 then []
                 else [printf NowConnectedJoysticks; onGamepadState 0 false]);
       window := with_count w (count (gamepad w) - 1);
       result := Returned tt |}.
Proof.
  intros E. unfold handleControllerDeviceEvent. rewrite E. cbn.
  destruct (count (gamepad w) <? 1); cbn; [reflexivity |].
  destruct (count (gamepad w) - 1 >? 0); reflexivity.
Qed.

Lemma handleControllerDeviceEvent_remapped
    (e : SDL_ControllerDeviceEvent) (controller : bool) (w : SDL2GameWindow) :
  cdevice_type e = SDL_CONTROLLERDEVICEREMAPPED ->
  handleControllerDeviceEvent e controller w =
  {| calls := []; window := w; result := Returned tt |}.
Proof.
  intros E. unfold handleControllerDeviceEvent. rewrite E. reflexivity.
Qed.

End GamepadSessionFacts.

(** Runs a handler symbolically: reduce, split on the next test, repeat. *)
Ltac run_cases :=
  repeat (cbn;
          match goal with
          | |- context [if ?b then _ else _] => destruct b
          end);
  cbn.

(** ** Handlers that leave the window alone *)

Section WindowPreservation.

Context {keys : KeyCode.Enum}.

Lemma to_bytes_window (c : Z) (w : SDL2GameWindow) :
  window (to_bytes c w) = w.
Proof. unfold to_bytes. run_cases; reflexivity. Qed.

Lemma text_switch_window (k : KeyCode) (w : SDL2GameWindow) :
  window (text_switch k w) = w.
Proof.
  unfold text_switch, text_from_BACKSPACE, text_from_DELETE, text_from_ENTER,
    text_from_LEFT, text_from_default, to_bytes.
  run_cases; reflexivity.
Qed.

Lemma handleKeyboardEvent_window (e : SDL_KeyboardEvent) (w : SDL2GameWindow) :
  window (handleKeyboardEvent e w) = w.
Proof.
  unfold handleKeyboardEvent.
  destruct (negb (repeat e =? 0)); [reflexivity |].
  destruct (state e =? SDL_PRESSED).
  - unfold bind. pose proof (text_switch_window (getKeyMinecraft (scancode e)) w) as H.
    destruct (result (text_switch (getKeyMinecraft (scancode e)) w)); cbn; exact H.
  - destruct (state e =? SDL_RELEASED); reflexivity.
Qed.

Lemma handleControllerAxisEvent_window
    (e : SDL_ControllerAxisEvent) (w : SDL2GameWindow) :
  window (handleControllerAxisEvent e w) = w.
Proof. unfold handleControllerAxisEvent. run_cases; reflexivity. Qed.

Lemma handleControllerButtonEvent_window
    (e : SDL_ControllerButtonEvent) (w : SDL2GameWindow) :
  window (handleControllerButtonEvent e w) = w.
Proof. unfold handleControllerButtonEvent. run_cases; reflexivity. Qed.

Lemma handleMouseWheelEvent_window
    (e : SDL_MouseWheelEvent) (w : SDL2GameWindow) :
  window (handleMouseWheelEvent e w) = w.
Proof. unfold handleMouseWheelEvent. run_cases; reflexivity. Qed.

Lemma handleMouseMotionEvent_window
    (e : SDL_MouseMotionEvent) (w : SDL2GameWindow) :
  window (handleMouseMotionEvent e w) = w.
Proof. unfold handleMouseMotionEvent. run_cases; reflexivity. Qed.

(** Only a device event changes the window. *)
Lemma dispatch_window (event : SDL_Event) (w : SDL2GameWindow) :
  (forall e controller, event <> cdevice e controller) ->
  window (dispatch event w) = w.
Proof.
  intros H. destruct event as [e c | e | e | e | e | e | e | |]; cbn.
  - now elim (H e c).
  - apply handleControllerAxisEvent_window.
  - apply handleControllerButtonEvent_window.
  - apply handleMouseMotionEvent_window.
  - apply handleMouseWheelEvent_window.
  - reflexivity.
  - destruct (key_type e).
    + unfold bind. pose proof (handleKeyboardEvent_window e w) as H1.
      destruct (result (handleKeyboardEvent e w)); cbn; [| exact H1].
      rewrite H1. apply handleKeyboardEvent_window.
    + apply handleKeyboardEvent_window.
  - reflexivity.
  - reflexivity.
Qed.

(** The counter after one event of the loop. *)
Lemma dispatch_count (event : SDL_Event) (w : SDL2GameWindow) :
  let n := count (gamepad w) in
  count (gamepad (window (dispatch event w))) =
  match event with
  | cdevice e _ =>
      match cdevice_type e with
      | SDL_CONTROLLERDEVICEADDED => n + 1
      | SDL_CONTROLLERDEVICEREMOVED => if n <? 1 then n else n - 1
      | SDL_CONTROLLERDEVICEREMAPPED => n
      end
  | _ => n
  end.
Proof.
  destruct event as [e c | e | e | e | e | e | e | |]; cbn zeta;
    try (rewrite dispatch_window; [reflexivity | discriminate]).
  cbn [dispatch]. destruct (cdevice_type e) eqn:E.
  - rewrite handleControllerDeviceEvent_added by exact E. reflexivity.
  - rewrite handleControllerDeviceEvent_removed by exact E.
    destruct (count (gamepad w) <? 1); reflexivity.
  - reflexivity.
Qed.

Lemma pollEvents_cons (event : SDL_Event) (rest : list SDL_Event)
    (w : SDL2GameWindow) :
  pollEvents (event :: rest) w = (dispatch event ;; pollEvents rest) w.
Proof. reflexivity. Qed.

(** The loop keeps the counter non-negative. *)
Lemma pollEvents_count_nonneg (queue : list SDL_Event) (w : SDL2GameWindow) :
  0 <= count (gamepad w) ->
  0 <= count (gamepad (window (pollEvents queue w))).
Proof.
  revert w. induction queue as [| event rest IH]; intros w H; [exact H |].
  rewrite pollEvents_cons. unfold bind.
  assert (H' : 0 <= count (gamepad (window (dispatch event w)))).
  { rewrite dispatch_count. cbn zeta.
    destruct event as [e c | | | | | | | |]; try exact H.
    destruct (cdevice_type e); [lia | | lia].
    destruct (Z.ltb_spec (count (gamepad w)) 1); lia. }
  destruct (result (dispatch event w)); cbn; [now apply IH | exact H'].
Qed.

(** The counter grows by at most one per event: while fewer than [INT_MAX]
    events have been handled since the window was made, the [int] of the
    source holds the value computed here. *)
Lemma count_bounded_by_events (queue : list SDL_Event) (w : SDL2GameWindow) :
  count (gamepad (window (pollEvents queue w)))
  <= count (gamepad w) + Z.of_nat (length queue).
Proof.
  revert w. induction queue as [| event rest IH]; intros w; [cbn; lia |].
  rewrite pollEvents_cons. unfold bind.
  assert (H' : count (gamepad (window (dispatch event w)))
               <= count (gamepad w) + 1).
  { rewrite dispatch_count. cbn zeta.
    destruct event as [e c | | | | | | | |]; try lia.
    destruct (cdevice_type e); [lia | | lia].
    destruct (Z.ltb_spec (count (gamepad w)) 1); lia. }
  cbn [length]. rewrite Nat2Z.inj_succ.
  destruct (result (dispatch event w)); cbn.
  - specialize (IH (window (dispatch event w))). lia.
  - lia.
Qed.

(** The calls of a run are the calls of its events, in queue order. *)
Lemma pollEvents_calls_per_event (queue : list SDL_Event) (w : SDL2GameWindow) :
  calls (pollEvents queue w) = concat (calls_per_event queue w).
Proof.
  revert w. induction queue as [| event rest IH]; intros w; [reflexivity |].
  rewrite pollEvents_cons. unfold bind. cbn [calls_per_event concat].
  destruct (result (dispatch event w)); cbn [calls].
  - now rewrite IH.
  - cbn. now rewrite app_nil_r.
Qed.

(** X15.  On a fresh window, a run over at most [INT_MAX] events keeps the
    counter within the non-negative range of [int]: it grows by at most one
    per event, so the [int] of the source cannot overflow. *)
Lemma count_fits_int (queue : list SDL_Event) :
  Z.of_nat (length queue) <= INT_MAX ->
  0 <= count (gamepad (window (pollEvents queue new_window))) <= INT_MAX.
Proof.
  intros H. split.
  - apply pollEvents_count_nonneg. cbn. lia.
  - pose proof (count_bounded_by_events queue new_window) as B.
    cbn [new_window gamepad count] in B. lia.
Qed.

End WindowPreservation.

(** ** Gamepad session: the claims *)

Section GamepadSessionClaims.

Context {keys : KeyCode.Enum}.

(** No handler but the device handler calls [onGamepadState]. *)
Lemma dispatch_other_no_gamepad_state (event : SDL_Event) (w : SDL2GameWindow) :
  (forall e controller, event <> cdevice e controller) ->
  filter is_onGamepadState (calls (dispatch event w)) = [].
Proof.
  intros H. destruct event as [e c | e | e | e | e | e | e | |].
  - now elim (H e c).
  - unfold dispatch, handleControllerAxisEvent. run_cases; reflexivity.
  - unfold dispatch, handleControllerButtonEvent. run_cases; reflexivity.
  - unfold dispatch, handleMouseMotionEvent. run_cases; reflexivity.
  - unfold dispatch, handleMouseWheelEvent. run_cases; reflexivity.
  - reflexivity.
  - unfold dispatch, handleKeyboardEvent, text_switch, text_from_BACKSPACE,
      text_from_DELETE, text_from_ENTER, text_from_LEFT, text_from_default,
      to_bytes.
    destruct (key_type e); run_cases; reflexivity.
  - reflexivity.
  - reflexivity.
Qed.

(** The state calls of a device event, for a counter that is not negative. *)
Lemma device_event_gamepad_state
    (e : SDL_ControllerDeviceEvent) (controller : bool) (w : SDL2GameWindow) :
  0 <= count (gamepad w) ->
  filter is_onGamepadState (calls (handleControllerDeviceEvent e controller w))
  = match cdevice_type e with
    | SDL_CONTROLLERDEVICEADDED =>
        if count (gamepad w) =? 0 then [onGamepadState 0 true] else []
    | SDL_CONTROLLERDEVICEREMOVED =>
        if count (gamepad w) =? 1 then [onGamepadState 0 false] else []
    | SDL_CONTROLLERDEVICEREMAPPED => []
    end.
Proof.
  intros H. destruct (cdevice_type e) eqn:E.
  - rewrite handleControllerDeviceEvent_added by exact E.
    unfold open_report.
    destruct (Z.gtb_spec (count (gamepad w) + 1) 1),
             (Z.eqb_spec (count (gamepad w)) 0), controller;
      cbn; try reflexivity; lia.
  - rewrite handleControllerDeviceEvent_removed by exact E.
    destruct (Z.ltb_spec (count (gamepad w)) 1),
             (Z.gtb_spec (count (gamepad w) - 1) 0),
             (Z.eqb_spec (count (gamepad w)) 1);
      cbn; try reflexivity; lia.
  - rewrite handleControllerDeviceEvent_remapped by exact E. reflexivity.
Qed.

(** C4.  From a fresh window, two connects that open their device followed
    by two disconnects give [onGamepadState(0, true)] at the first event,
    nothing at the second and third, [onGamepadState(0, false)] at the
    fourth, two state calls in all.  In general, with a counter that is not
    negative, an event of the loop calls [onGamepadState] only when it is a
    connect finding the counter at 0 or a disconnect finding it at 1. *)
Theorem gamepad_state_first_connect_last_disconnect :
  (forall (i1 i2 i3 i4 : Z) (c3 c4 : bool),
     let added i := {| cdevice_type := SDL_CONTROLLERDEVICEADDED; which := i |} in
     let removed i :=
       {| cdevice_type := SDL_CONTROLLERDEVICEREMOVED; which := i |} in
     let queue := [cdevice (added i1) true; cdevice (added i2) true;
                   cdevice (removed i3) c3; cdevice (removed i4) c4] in
     map (filter is_onGamepadState) (calls_per_event queue new_window)
     = [[onGamepadState 0 true]; []; []; [onGamepadState 0 false]]
     /\ filter is_onGamepadState (calls (pollEvents queue new_window))
        = [onGamepadState 0 true; onGamepadState 0 false])
  /\ (forall (event : SDL_Event) (w : SDL2GameWindow),
        0 <= count (gamepad w) ->
        filter is_onGamepadState (calls (dispatch event w))
        = match event with
          | cdevice e _ =>
              match cdevice_type e with
              | SDL_CONTROLLERDEVICEADDED =>
                  if count (gamepad w) =? 0
                  then [onGamepadState 0 true] else []
              | SDL_CONTROLLERDEVICEREMOVED =>
                  if count (gamepad w) =? 1
                  then [onGamepadState 0 false] else []
              | SDL_CONTROLLERDEVICEREMAPPED => []
              end
          | _ => []
          end).
Proof.
  split.
  - intros. split; reflexivity.
  - intros event w H.
    destruct event as [e c | | | | | | | |];
      try (apply dispatch_other_no_gamepad_state; discriminate).
    cbn [dispatch]. destruct (cdevice_type e) eqn:E.
    + rewrite device_event_gamepad_state by exact H. now rewrite E.
    + rewrite device_event_gamepad_state by exact H. now rewrite E.
    + reflexivity.
Qed.

(** C5.  The counter is never negative after any run of the loop on a
    fresh window; one event of the loop keeps a non-negative counter
    non-negative and moves it by at most 1; a connect adds 1, a disconnect
    with a counter of at least 1 subtracts 1, and a disconnect that finds
    the counter at 0 prints the inconsistency and does nothing else: the
    window is unchanged and no callback is made. *)
Theorem gamepad_count_nonnegative_unit_steps :
  (forall queue : list SDL_Event,
     0 <= count (gamepad (window (pollEvents queue new_window))))
  /\ (forall (event : SDL_Event) (w : SDL2GameWindow),
        0 <= count (gamepad w) ->
        0 <= count (gamepad (window (dispatch event w)))
        /\ Z.abs (count (gamepad (window (dispatch event w)))
                  - count (gamepad w)) <= 1)
  /\ (forall (e : SDL_ControllerDeviceEvent) (controller : bool)
             (w : SDL2GameWindow),
        (cdevice_type e = SDL_CONTROLLERDEVICEADDED ->
         count (gamepad (window (handleControllerDeviceEvent e controller w)))
         = count (gamepad w) + 1)
        /\ (cdevice_type e = SDL_CONTROLLERDEVICEREMOVED ->
            1 <= count (gamepad w) ->
            count (gamepad (window (handleControllerDeviceEvent e controller w)))
            = count (gamepad w) - 1)
        /\ (cdevice_type e = SDL_CONTROLLERDEVICEREMOVED ->
            count (gamepad w) = 0 ->
            handleControllerDeviceEvent e controller w
            = {| calls := [printf RemovedWhenNoneConnected];
                 window := w;
                 result := Returned tt |})).
Proof.
  split; [| split].
  - intros queue. apply pollEvents_count_nonneg. cbn. lia.
  - intros event w H. rewrite dispatch_count. cbn zeta.
    destruct event as [e c | | | | | | | |]; try lia.
    destruct (cdevice_type e); [lia | | lia].
    destruct (Z.ltb_spec (count (gamepad w)) 1); lia.
  - intros e controller w. split; [| split].
    + intros E. rewrite handleControllerDeviceEvent_added by exact E.
      reflexivity.
    + intros E H. rewrite handleControllerDeviceEvent_removed by exact E.
      destruct (Z.ltb_spec (count (gamepad w)) 1); [lia | reflexivity].
    + intros E H. rewrite handleControllerDeviceEvent_removed by exact E.
      rewrite H. reflexivity.
Qed.

(** C3, as the source has it.  A connect event whose device does not open
    prints the failure and is otherwise handled like any connect: the
    counter is incremented, and [onGamepadState(0, true)] is called exactly
    when the counter was 0 before the event. *)
Theorem failed_open_counts_as_connect
    (e : SDL_ControllerDeviceEvent) (w : SDL2GameWindow) :
  cdevice_type e = SDL_CONTROLLERDEVICEADDED ->
  0 <= count (gamepad w) ->
  let r := handleControllerDeviceEvent e false w in
  calls r = printf CouldntOpenController ::
            (if count (gamepad w) =? 0
             then [printf NowConnectedJoysticks; onGamepadState 0 true]
             else [])
  /\ count (gamepad (window r)) = count (gamepad w) + 1
  /\ result r = Returned tt
  /\ (In (onGamepadState 0 true) (calls r) <-> count (gamepad w) = 0).
Proof.
  intros E H. cbn zeta.
  rewrite handleControllerDeviceEvent_added by exact E.
  unfold open_report. cbn [calls window result].
  destruct (Z.gtb_spec (count (gamepad w) + 1) 1),
           (Z.eqb_spec (count (gamepad w)) 0); try lia.
  - split; [reflexivity | split; [reflexivity | split; [reflexivity |]]].
    split; [| intros; exfalso; lia].
    cbn. intros [F | []]. discriminate F.
  - split; [reflexivity | split; [reflexivity | split; [reflexivity |]]].
    split; [intros _; assumption | intros _; cbn; tauto].
Qed.

End GamepadSessionClaims.

(** C3, counterexample to the sentence of the specification: on a fresh
    window a connect event whose device does not open makes the transition
    of the counter from 0 to 1, and [onGamepadState(0, true)] is called all
    the same. *)
Lemma failed_open_still_signals_connected :
  calls (handleControllerDeviceEvent
           {| cdevice_type := SDL_CONTROLLERDEVICEADDED; which := 0 |}
           false new_window)
  = [printf CouldntOpenController; printf NowConnectedJoysticks;
     onGamepadState 0 true]
  /\ In (onGamepadState 0 true)
        (calls (handleControllerDeviceEvent
                  {| cdevice_type := SDL_CONTROLLERDEVICEADDED; which := 0 |}
                  false new_window)).
Proof. cbn. split; [reflexivity | tauto]. Qed.

(** ** Mouse events *)

Section MouseClaims.

Context {keys : KeyCode.Enum}.

(** C6.  A motion event makes exactly one position call, chosen by the
    capture flag of the window: [onMouseRelativePosition] with the deltas
    when it is set, [onMousePosition] with the absolute coordinates when it
    is not; [setCursorDisabled] stores its argument in the flag, so a motion
    event handled right after it, by the handler or through the loop, is
    routed by the new value. *)
Theorem motion_routed_by_capture_flag
    (e : SDL_MouseMotionEvent) (w : SDL2GameWindow) :
  calls (handleMouseMotionEvent e w)
  = [if captured w
     then onMouseRelativePosition (xrel e) (yrel e)
     else onMousePosition (motion_x e) (motion_y e)]
  /\ length (filter is_position_callback (calls (handleMouseMotionEvent e w)))
     = 1%nat
  /\ forall (disabled : bool) (rest : list SDL_Event),
       let w' := window (setCursorDisabled disabled w) in
       captured w' = disabled
       /\ calls (handleMouseMotionEvent e w')
          = [if disabled
             then onMouseRelativePosition (xrel e) (yrel e)
             else onMousePosition (motion_x e) (motion_y e)]
       /\ hd_error (calls_per_event (motion e :: rest) w')
          = Some [if disabled
                  then onMouseRelativePosition (xrel e) (yrel e)
                  else onMousePosition (motion_x e) (motion_y e)].
Proof.
  split; [| split].
  - unfold handleMouseMotionEvent. cbn. destruct (captured w); reflexivity.
  - unfold handleMouseMotionEvent. cbn. destruct (captured w); reflexivity.
  - intros disabled rest. cbn. destruct disabled; repeat split; reflexivity.
Qed.

(** The one call of a wheel event, by the sign of the deflections. *)
Lemma handleMouseWheelEvent_calls
    (e : SDL_MouseWheelEvent) (w : SDL2GameWindow) :
  calls (handleMouseWheelEvent e w)
  = if negb (wheel_x e =? 0)
    then [onMouseScroll (wheel_x e) (wheel_y e) (Z.sgn (wheel_x e)) 0]
    else if negb (wheel_y e =? 0)
         then [onMouseScroll 0 0 0 (Z.sgn (wheel_y e))]
         else [].
Proof.
  unfold handleMouseWheelEvent.
  destruct (Z.ltb_spec (wheel_x e) 0) as [Hx | Hx].
  - replace (wheel_x e =? 0) with false by (symmetry; apply Z.eqb_neq; lia).
    rewrite Z.sgn_neg by exact Hx. reflexivity.
  - destruct (Z.gtb_spec (wheel_x e) 0) as [Hx' | Hx'].
    + replace (wheel_x e =? 0) with false by (symmetry; apply Z.eqb_neq; lia).
      rewrite Z.sgn_pos by lia. reflexivity.
    + replace (wheel_x e =? 0) with true by (symmetry; apply Z.eqb_eq; lia).
      cbn [negb].
      destruct (Z.ltb_spec (wheel_y e) 0) as [Hy | Hy].
      * replace (wheel_y e =? 0) with false
          by (symmetry; apply Z.eqb_neq; lia).
        rewrite Z.sgn_neg by exact Hy. reflexivity.
      * destruct (Z.gtb_spec (wheel_y e) 0) as [Hy' | Hy'].
        -- replace (wheel_y e =? 0) with false
             by (symmetry; apply Z.eqb_neq; lia).
           rewrite Z.sgn_pos by lia. reflexivity.
        -- replace (wheel_y e =? 0) with true
             by (symmetry; apply Z.eqb_eq; lia).
           reflexivity.
Qed.

(** C9.  A wheel event makes at most one [onMouseScroll] call and no other
    call; the direction of that call has exactly one non-zero component, of
    magnitude 1 and of the sign of the deflection on that axis.  A wheel
    event with horizontal deflection -3 and vertical deflection 0 makes the
    single call with direction (-1, 0). *)
Theorem wheel_single_unit_direction
    (e : SDL_MouseWheelEvent) (w : SDL2GameWindow) :
  (length (calls (handleMouseWheelEvent e w)) <= 1)%nat
  /\ Forall
       (fun c =>
          exists dx dy : Z,
            scroll_direction c = Some (dx, dy)
            /\ ((dx = Z.sgn (wheel_x e) /\ Z.abs dx = 1 /\ dy = 0)
                \/ (dx = 0 /\ dy = Z.sgn (wheel_y e) /\ Z.abs dy = 1)))
       (calls (handleMouseWheelEvent e w))
  /\ calls (handleMouseWheelEvent {| wheel_x := -3; wheel_y := 0 |} w)
     = [onMouseScroll (-3) 0 (-1) 0].
Proof.
  split; [| split]; [| | reflexivity].
  - rewrite handleMouseWheelEvent_calls.
    destruct (negb (wheel_x e =? 0)), (negb (wheel_y e =? 0)); cbn; lia.
  - rewrite handleMouseWheelEvent_calls.
    destruct (Z.eqb_spec (wheel_x e) 0) as [Hx | Hx]; cbn [negb].
    + destruct (Z.eqb_spec (wheel_y e) 0) as [Hy | Hy]; cbn [negb].
      * constructor.
      * constructor; [| constructor].
        exists 0, (Z.sgn (wheel_y e)). split; [reflexivity |].
        right. repeat split. lia.
    + constructor; [| constructor].
      exists (Z.sgn (wheel_x e)), 0. split; [reflexivity |].
      left. repeat split. lia.
Qed.

(** C10, as the source has it.  With a non-zero horizontal deflection the
    one call is the horizontal one: its direction is (sign of the horizontal
    deflection, 0) whatever the vertical deflection is, and the two
    deflections themselves are passed on unchanged as the first two
    arguments of the call.  With both deflections zero no call is made. *)
Theorem wheel_horizontal_precedence
    (e : SDL_MouseWheelEvent) (w : SDL2GameWindow) :
  (wheel_x e <> 0 ->
   calls (handleMouseWheelEvent e w)
   = [onMouseScroll (wheel_x e) (wheel_y e) (Z.sgn (wheel_x e)) 0]
   /\ forall y' : Z,
        map scroll_direction
          (calls (handleMouseWheelEvent
                    {| wheel_x := wheel_x e; wheel_y := y' |} w))
        = [Some (Z.sgn (wheel_x e), 0)])
  /\ (wheel_x e = 0 -> wheel_y e = 0 ->
      calls (handleMouseWheelEvent e w) = []).
Proof.
  split.
  - intros Hx. split; [| intros y']; rewrite handleMouseWheelEvent_calls;
      cbn [wheel_x wheel_y];
      destruct (Z.eqb_spec (wheel_x e) 0); try contradiction; reflexivity.
  - intros Hx Hy. rewrite handleMouseWheelEvent_calls, Hx, Hy. reflexivity.
Qed.

End MouseClaims.

(** C10, counterexample to the sentence of the specification: the vertical
    deflection is not ignored entirely.  With the same horizontal
    deflection 5, the vertical deflections 7 and 0 give different calls,
    because the vertical deflection is the second argument of
    [onMouseScroll]. *)
Lemma vertical_deflection_reaches_the_call :
  calls (handleMouseWheelEvent {| wheel_x := 5; wheel_y := 7 |} new_window)
  = [onMouseScroll 5 7 1 0]
  /\ calls (handleMouseWheelEvent {| wheel_x := 5; wheel_y := 0 |} new_window)
     = [onMouseScroll 5 0 1 0]
  /\ calls (handleMouseWheelEvent {| wheel_x := 5; wheel_y := 7 |} new_window)
     <> calls (handleMouseWheelEvent {| wheel_x := 5; wheel_y := 0 |}
                 new_window).
Proof.
  split; [reflexivity | split; [reflexivity |]].
  cbn. intros E. discriminate E.
Qed.

(** ** Keyboard events *)

Section KeyboardFacts.

Context {keys : KeyCode.Enum}.

(** A key-up event of the loop reaches the handler once. *)
Lemma key_up_handled_once (e : SDL_KeyboardEvent) (w : SDL2GameWindow) :
  key_type e = SDL_KEYUP ->
  dispatch (key e) w = handleKeyboardEvent e w.
Proof. intros E. cbn. now rewrite E. Qed.

(** A press of a key that is none of the four special keys delivers one
    text, the conversion of its key code. *)
Lemma plain_key_press_single_text (e : SDL_KeyboardEvent) (w : SDL2GameWindow) :
  let k := getKeyMinecraft (scancode e) in
  repeat e = 0 -> state e = SDL_PRESSED ->
  k <> KeyCode.BACKSPACE -> k <> KeyCode.DELETE ->
  k <> KeyCode.ENTER -> k <> KeyCode.LEFT ->
  0 <= k <= 0x10FFFF ->
  calls (handleKeyboardEvent e w)
  = [onKeyboardText (utf8 k); onKeyboard k KeyAction.PRESS].
Proof.
  intros k Hr Hs H1 H2 H3 H4 Hk.
  unfold handleKeyboardEvent. rewrite Hr, Hs. cbn [Z.eqb negb].
  fold k. unfold text_switch.
  destruct (Z.eqb_spec k KeyCode.BACKSPACE); [contradiction |].
  destruct (Z.eqb_spec k KeyCode.DELETE); [contradiction |].
  destruct (Z.eqb_spec k KeyCode.ENTER); [contradiction |].
  destruct (Z.eqb_spec k KeyCode.LEFT); [contradiction |].
  unfold text_from_default, to_bytes.
  rewrite Z.mod_small by lia.
  destruct (Z.leb_spec k 0x10FFFF); [reflexivity | lia].
Qed.

(** C1, at the press of BACKSPACE.  The inner [switch] is entered at
    [case KeyCode::BACKSPACE] and, having no [break], runs the statements
    of every case below it: the handler delivers the texts 0x08, 0x7F,
    newline and 0x1B, in this order, before the conversion of the key code
    (for every numbering of the key codes); with the virtual-key numbering
    that is five texts for one press. *)
Theorem backspace_press_delivers_every_payload (w : SDL2GameWindow) :
  firstn 4
    (calls (handleKeyboardEvent
              {| key_type := SDL_KEYDOWN; state := SDL_PRESSED; repeat := 0;
                 scancode := SDL_SCANCODE_BACKSPACE |} w))
  = [onKeyboardText [0x08]; onKeyboardText [0x7F]; onKeyboardText [0x0A];
     onKeyboardText [0x1B]]
  /\ calls (handleKeyboardEvent (keys := virtual_key_codes)
              {| key_type := SDL_KEYDOWN; state := SDL_PRESSED; repeat := 0;
                 scancode := SDL_SCANCODE_BACKSPACE |} w)
     = [onKeyboardText [0x08]; onKeyboardText [0x7F]; onKeyboardText [0x0A];
        onKeyboardText [0x1B]; onKeyboardText [0x08];
        onKeyboard 8 KeyAction.PRESS].
Proof.
  split; [| reflexivity].
  unfold handleKeyboardEvent. cbn [scancode repeat state Z.eqb negb SDL_PRESSED].
  change (getKeyMinecraft SDL_SCANCODE_BACKSPACE) with KeyCode.BACKSPACE.
  unfold text_switch. rewrite Z.eqb_refl.
  unfold text_from_BACKSPACE, text_from_DELETE, text_from_ENTER,
    text_from_LEFT, text_from_default, to_bytes.
  run_cases; reflexivity.
Qed.

(** C2, at the press of the letter A.  The [SDL_KEYDOWN] case of the loop
    has no [break]: the handler runs for the case and again for
    [SDL_KEYUP], so one key-down event gives two [onKeyboard] calls and at
    least two texts (for every numbering of the key codes); with the
    virtual-key numbering the whole run is the text and the key call,
    twice. *)
Theorem key_down_handled_twice (w : SDL2GameWindow) :
  filter is_onKeyboard
    (calls (pollEvents
              [key {| key_type := SDL_KEYDOWN; state := SDL_PRESSED;
                      repeat := 0; scancode := SDL_SCANCODE_A |}] w))
  = [onKeyboard 65 KeyAction.PRESS; onKeyboard 65 KeyAction.PRESS]
  /\ (2 <= length
            (filter is_onKeyboardText
               (calls (pollEvents
                         [key {| key_type := SDL_KEYDOWN; state := SDL_PRESSED;
                                 repeat := 0; scancode := SDL_SCANCODE_A |}]
                         w))))%nat
  /\ calls (pollEvents (keys := virtual_key_codes)
              [key {| key_type := SDL_KEYDOWN; state := SDL_PRESSED;
                      repeat := 0; scancode := SDL_SCANCODE_A |}] w)
     = [onKeyboardText [65]; onKeyboard 65 KeyAction.PRESS;
        onKeyboardText [65]; onKeyboard 65 KeyAction.PRESS].
Proof.
  split; [| split]; [| | reflexivity].
  - unfold pollEvents, dispatch, handleKeyboardEvent.
    cbn [key_type scancode repeat state Z.eqb negb SDL_PRESSED].
    change (getKeyMinecraft SDL_SCANCODE_A) with 65.
    unfold text_switch, text_from_BACKSPACE, text_from_DELETE,
      text_from_ENTER, text_from_LEFT, text_from_default.
    change (to_bytes 65) with (@ret (list Z) [65]).
    run_cases; reflexivity.
  - unfold pollEvents, dispatch, handleKeyboardEvent.
    cbn [key_type scancode repeat state Z.eqb negb SDL_PRESSED].
    change (getKeyMinecraft SDL_SCANCODE_A) with 65.
    unfold text_switch, text_from_BACKSPACE, text_from_DELETE,
      text_from_ENTER, text_from_LEFT, text_from_default.
    change (to_bytes 65) with (@ret (list Z) [65]).
    run_cases; lia.
Qed.

End KeyboardFacts.

(** ** The theorems at concrete inputs *)

(** C7 at the Return key, which has no case in the mapper: it is covered by
    no label and maps to [UNKNOWN]. *)
Lemma return_scancode_unknown_witness :
  ~ covered SDL_SCANCODE_RETURN
  /\ getKeyMinecraft (keys := virtual_key_codes) SDL_SCANCODE_RETURN = 0.
Proof.
  assert (H : ~ covered SDL_SCANCODE_RETURN).
  { unfold covered, letter_scancode, SDL_SCANCODE_RETURN, SDL_SCANCODE_A,
      SDL_SCANCODE_Z.
    intros [H | [H | H]]; [| lia |];
      apply existsb_of_In in H; discriminate H. }
  split; [exact H |].
  exact (proj2 (proj2 (getKeyMinecraft_total_unknown_default
                         (keys := virtual_key_codes) SDL_SCANCODE_RETURN)) H).
Defined.

(** C8 with the virtual-key numbering: the numeric key codes 48 .. 57 are
    ten different values, the digit scancodes go to them in order, and the
    scancode of A goes to 65. *)
Lemma virtual_key_digits_letters_witness :
  NoDup (numeric_keycodes (keys := virtual_key_codes))
  /\ map (getKeyMinecraft (keys := virtual_key_codes)) digit_scancodes
     = [48; 49; 50; 51; 52; 53; 54; 55; 56; 57]
  /\ getKeyMinecraft (keys := virtual_key_codes) SDL_SCANCODE_A = 65.
Proof.
  assert (ND : NoDup (numeric_keycodes (keys := virtual_key_codes))).
  { repeat (apply NoDup_cons;
            [intros H; apply existsb_of_In in H; discriminate H |]).
    apply NoDup_nil. }
  split; [exact ND |].
  destruct (digits_bijective_letters_contiguous (keys := virtual_key_codes) ND)
    as [[Hd _] [Hl _]].
  split; [exact Hd |].
  apply (Hl SDL_SCANCODE_A).
  unfold letter_scancode, SDL_SCANCODE_A, SDL_SCANCODE_Z. lia.
Defined.

(** C3, amended, on a fresh window. *)
Lemma failed_open_on_fresh_window_witness :
  cdevice_type {| cdevice_type := SDL_CONTROLLERDEVICEADDED; which := 0 |}
  = SDL_CONTROLLERDEVICEADDED
  /\ 0 <= count (gamepad new_window)
  /\ count (gamepad (window (handleControllerDeviceEvent
                               {| cdevice_type := SDL_CONTROLLERDEVICEADDED;
                                  which := 0 |} false new_window))) = 1.
Proof.
  split; [reflexivity | split; [cbn; lia |]].
  apply (failed_open_counts_as_connect
           {| cdevice_type := SDL_CONTROLLERDEVICEADDED; which := 0 |}
           new_window); [reflexivity | cbn; lia].
Defined.

(** C4 at the last disconnect: one controller is connected, its removal
    calls [onGamepadState(0, false)]. *)
Lemma last_disconnect_witness :
  0 <= count (gamepad (with_count new_window 1))
  /\ filter is_onGamepadState
       (calls (dispatch (keys := virtual_key_codes)
                 (cdevice {| cdevice_type := SDL_CONTROLLERDEVICEREMOVED;
                             which := 0 |} false)
                 (with_count new_window 1)))
     = [onGamepadState 0 false].
Proof.
  split; [cbn; lia |].
  apply (proj2 (gamepad_state_first_connect_last_disconnect
                  (keys := virtual_key_codes))
           (cdevice {| cdevice_type := SDL_CONTROLLERDEVICEREMOVED;
                       which := 0 |} false)
           (with_count new_window 1)).
  cbn. lia.
Defined.

(** C5 at a disconnect on a fresh window: the counter stays at 0. *)
Lemma stray_disconnect_witness :
  0 <= count (gamepad new_window)
  /\ 0 <= count (gamepad (window (dispatch (keys := virtual_key_codes)
                    (cdevice {| cdevice_type := SDL_CONTROLLERDEVICEREMOVED;
                                which := 0 |} false)
                    new_window)))
  /\ handleControllerDeviceEvent
       {| cdevice_type := SDL_CONTROLLERDEVICEREMOVED; which := 0 |}
       false new_window
     = {| calls := [printf RemovedWhenNoneConnected];
          window := new_window;
          result := Returned tt |}.
Proof.
  assert (H : 0 <= count (gamepad new_window)) by (cbn; lia).
  destruct (gamepad_count_nonnegative_unit_steps (keys := virtual_key_codes))
    as [_ [Hstep Hdev]].
  split; [exact H | split].
  - apply (Hstep (cdevice {| cdevice_type := SDL_CONTROLLERDEVICEREMOVED;
                             which := 0 |} false) new_window H).
  - apply (Hdev {| cdevice_type := SDL_CONTROLLERDEVICEREMOVED; which := 0 |}
             false new_window); reflexivity.
Defined.

(** C10 at a wheel event with deflections (5, 7): the direction is (1, 0). *)
Lemma diagonal_wheel_witness :
  wheel_x {| wheel_x := 5; wheel_y := 7 |} <> 0
  /\ calls (handleMouseWheelEvent {| wheel_x := 5; wheel_y := 7 |} new_window)
     = [onMouseScroll 5 7 1 0].
Proof.
  assert (H : wheel_x {| wheel_x := 5; wheel_y := 7 |} <> 0) by (cbn; lia).
  split; [exact H |].
  apply (proj1 (wheel_horizontal_precedence
                  {| wheel_x := 5; wheel_y := 7 |} new_window) H).
Defined.

(** * Further properties of the event layer *)

(** ** What the mapper can return *)

Section MapperImage.

Context {keys : KeyCode.Enum}.

Lemma getKeyMinecraft_listed :
  map getKeyMinecraft listed_scancodes = listed_keycodes.
Proof. reflexivity. Qed.

(** Every result of the mapper is a named enumerator or a letter value. *)
Lemma getKeyMinecraft_producible (keyCode : Z) :
  producible (getKeyMinecraft keyCode).
Proof.
  unfold producible, returned_keycodes.
  destruct (in_dec Z.eq_dec keyCode digit_scancodes) as [Hd | Hd].
  { left. right. apply in_or_app. left.
    rewrite <- getKeyMinecraft_digits. now apply in_map. }
  destruct (in_dec Z.eq_dec keyCode listed_scancodes) as [Hl | Hl].
  { left. right. apply in_or_app. right.
    rewrite <- getKeyMinecraft_listed. now apply in_map. }
  destruct (Z_le_dec SDL_SCANCODE_A keyCode) as [Ha | Ha];
    [destruct (Z_le_dec keyCode SDL_SCANCODE_Z) as [Hz | Hz] |].
  - right. rewrite getKeyMinecraft_letter by (split; assumption). lia.
  - left. left. symmetry. apply getKeyMinecraft_uncovered.
    unfold covered, letter_scancode. tauto.
  - left. left. symmetry. apply getKeyMinecraft_uncovered.
    unfold covered, letter_scancode. tauto.
Qed.


End MapperImage.


(** ** The keyboard handler *)

Section KeyboardHandlerFacts.

Context {keys : KeyCode.Enum}.

(** How the text switch ends: it throws exactly when the conversion of the
    key code fails. *)
Lemma text_switch_result (k : KeyCode) (w : SDL2GameWindow) :
  result (text_switch k w)
  = if k mod 2 ^ 32 <=? 0x10FFFF then Returned tt else Thrown.
Proof.
  unfold text_switch, text_from_BACKSPACE, text_from_DELETE, text_from_ENTER,
    text_from_LEFT, text_from_default, to_bytes.
  run_cases; reflexivity.
Qed.

Lemma handleKeyboardEvent_returns (e : SDL_KeyboardEvent) (w : SDL2GameWindow) :
  code_point (getKeyMinecraft (scancode e)) ->
  result (handleKeyboardEvent e w) = Returned tt.
Proof.
  unfold code_point. intros H. unfold handleKeyboardEvent.
  destruct (negb (repeat e =? 0)); [reflexivity |].
  destruct (state e =? SDL_PRESSED).
  - unfold bind. rewrite text_switch_result.
    rewrite Z.mod_small by lia.
    destruct (Z.leb_spec (getKeyMinecraft (scancode e)) 0x10FFFF);
      [reflexivity | lia].
  - destruct (state e =? SDL_RELEASED); reflexivity.
Qed.

(** X2.  Whatever the event, the keyboard handler calls [onKeyboard] at
    most once and leaves the window as it was; it delivers text only for a
    press that is not a repeat: an auto-repeat or a release gives no
    [onKeyboardText] call. *)
Theorem keyboard_event_one_key_call_text_on_press_only
    (e : SDL_KeyboardEvent) (w : SDL2GameWindow) :
  (length (filter is_onKeyboard (calls (handleKeyboardEvent e w))) <= 1)%nat
  /\ window (handleKeyboardEvent e w) = w
  /\ (repeat e <> 0 \/ state e <> SDL_PRESSED ->
      filter is_onKeyboardText (calls (handleKeyboardEvent e w)) = []).
Proof.
  split; [| split].
  - unfold handleKeyboardEvent, text_switch, text_from_BACKSPACE,
      text_from_DELETE, text_from_ENTER, text_from_LEFT, text_from_default,
      to_bytes.
    run_cases; lia.
  - apply handleKeyboardEvent_window.
  - intros H. unfold handleKeyboardEvent.
    destruct (Z.eqb_spec (repeat e) 0) as [Hr | Hr]; [| reflexivity].
    destruct (Z.eqb_spec (state e) SDL_PRESSED) as [Hs | Hs]; [tauto |].
    cbn [negb]. destruct (state e =? SDL_RELEASED); reflexivity.
Qed.

(** X3.  A press, not a repeat, of a key whose code is a code point and is
    none of BACKSPACE, DELETE, ENTER and LEFT delivers exactly one text, the
    UTF-8 encoding of the key code, and then the key itself. *)
Theorem plain_press_one_text_then_key
    (e : SDL_KeyboardEvent) (w : SDL2GameWindow) :
  repeat e = 0 -> state e = SDL_PRESSED ->
  ~ In (getKeyMinecraft (scancode e))
       [KeyCode.BACKSPACE; KeyCode.DELETE; KeyCode.ENTER; KeyCode.LEFT] ->
  code_point (getKeyMinecraft (scancode e)) ->
  calls (handleKeyboardEvent e w)
  = [onKeyboardText (utf8 (getKeyMinecraft (scancode e)));
     onKeyboard (getKeyMinecraft (scancode e)) KeyAction.PRESS].
Proof.
  intros Hr Hs Hn Hk.
  apply plain_key_press_single_text; try assumption;
    try (unfold code_point in Hk; lia);
    intros E; apply Hn; rewrite E; cbn; tauto.
Qed.

(** X4.  When none of the four special key codes lies in 65 .. 90, a press
    of a letter key delivers the one byte of the upper-case ASCII letter:
    the scancode plus 61. *)
Theorem letter_press_delivers_ascii_letter
    (e : SDL_KeyboardEvent) (w : SDL2GameWindow) :
  letter_scancode (scancode e) ->
  repeat e = 0 -> state e = SDL_PRESSED ->
  Forall (fun k => ~ 65 <= k <= 90)
    [KeyCode.BACKSPACE; KeyCode.DELETE; KeyCode.ENTER; KeyCode.LEFT] ->
  calls (handleKeyboardEvent e w)
  = [onKeyboardText [scancode e + 61];
     onKeyboard (scancode e + 61) KeyAction.PRESS].
Proof.
  intros Hl Hr Hs Hn.
  pose proof (getKeyMinecraft_letter (scancode e) Hl) as E.
  assert (R : 65 <= scancode e + 61 <= 90).
  { unfold letter_scancode, SDL_SCANCODE_A, SDL_SCANCODE_Z in Hl. lia. }
  rewrite plain_key_press_single_text; try assumption; rewrite E.
  - unfold utf8. destruct (Z.ltb_spec (scancode e + 61) 0x80);
      [reflexivity | lia].
  - intros F. rewrite Forall_forall in Hn.
    apply (Hn (scancode e + 61)); [rewrite F; cbn; tauto | exact R].
  - intros F. rewrite Forall_forall in Hn.
    apply (Hn (scancode e + 61)); [rewrite F; cbn; tauto | exact R].
  - intros F. rewrite Forall_forall in Hn.
    apply (Hn (scancode e + 61)); [rewrite F; cbn; tauto | exact R].
  - intros F. rewrite Forall_forall in Hn.
    apply (Hn (scancode e + 61)); [rewrite F; cbn; tauto | exact R].
  - lia.
Qed.

(** X5.  A key-down event of the loop whose handler returns gives the calls
    of the handler twice, the second run starting from the same window. *)
Theorem key_down_calls_doubled (e : SDL_KeyboardEvent) (w : SDL2GameWindow) :
  key_type e = SDL_KEYDOWN ->
  result (handleKeyboardEvent e w) = Returned tt ->
  calls (dispatch (key e) w)
  = calls (handleKeyboardEvent e w) ++ calls (handleKeyboardEvent e w)
  /\ window (dispatch (key e) w) = w
  /\ result (dispatch (key e) w) = Returned tt.
Proof.
  intros E R. cbn [dispatch]. rewrite E. unfold bind. rewrite R.
  cbn [calls window result]. rewrite handleKeyboardEvent_window.
  repeat split; [apply handleKeyboardEvent_window | exact R].
Qed.

End KeyboardHandlerFacts.

(** ** The poll loop *)

Section PollLoopFacts.

Context {keys : KeyCode.Enum}.

Lemma run_eta {T : Type} (r : Run T) :
  {| calls := calls r; window := window r; result := result r |} = r.
Proof. now destruct r. Qed.

Lemma bind_assoc {T U V : Type} (m : M T) (k : T -> M U) (h : U -> M V)
    (w : SDL2GameWindow) :
  bind (bind m k) h w = bind m (fun x => bind (k x) h) w.
Proof.
  unfold bind. destruct (result (m w)) as [x |]; cbn; [| reflexivity].
  destruct (result (k x (window (m w)))); cbn; [| reflexivity].
  now rewrite app_assoc.
Qed.

Lemma bind_ext {T U : Type} (m : M T) (k k' : T -> M U) (w : SDL2GameWindow) :
  (forall x w', k x w' = k' x w') -> bind m k w = bind m k' w.
Proof.
  intros H. unfold bind. destruct (result (m w)); [| reflexivity].
  now rewrite H.
Qed.

(** Handlers other than the keyboard handler always return. *)
Lemma dispatch_result_other (event : SDL_Event) (w : SDL2GameWindow) :
  (forall e, event <> key e) ->
  result (dispatch event w) = Returned tt.
Proof.
  intros H. destruct event as [e c | e | e | e | e | e | e | |].
  - cbn [dispatch]. destruct (cdevice_type e) eqn:E.
    + now rewrite handleControllerDeviceEvent_added.
    + rewrite handleControllerDeviceEvent_removed by exact E.
      destruct (count (gamepad w) <? 1); reflexivity.
    + reflexivity.
  - unfold dispatch, handleControllerAxisEvent. run_cases; reflexivity.
  - unfold dispatch, handleControllerButtonEvent. run_cases; reflexivity.
  - unfold dispatch, handleMouseMotionEvent. run_cases; reflexivity.
  - unfold dispatch, handleMouseWheelEvent. run_cases; reflexivity.
  - reflexivity.
  - now elim (H e).
  - reflexivity.
  - reflexivity.
Qed.

Lemma dispatch_returns (event : SDL_Event) (w : SDL2GameWindow) :
  Forall code_point returned_keycodes ->
  result (dispatch event w) = Returned tt.
Proof.
  intros H.
  assert (K : forall sc, code_point (getKeyMinecraft sc)).
  { intros sc. destruct (getKeyMinecraft_producible sc) as [P | P].
    - rewrite Forall_forall in H. now apply H.
    - unfold code_point. unfold SDL_SCANCODE_A, SDL_SCANCODE_Z in P. lia. }
  destruct event as [e c | e | e | e | e | e | e | |];
    try (apply dispatch_result_other; discriminate).
  cbn [dispatch]. destruct (key_type e).
  - unfold bind. rewrite (handleKeyboardEvent_returns e w (K _)).
    cbn [result]. rewrite handleKeyboardEvent_window.
    apply handleKeyboardEvent_returns, K.
  - apply handleKeyboardEvent_returns, K.
Qed.

(** X6.  When every enumerator the mapper returns is a code point (not
    negative, at most 0x10FFFF, no surrogate), no exception leaves the
    loop: for every queue and every window [pollEvents] returns, having
    handled the whole queue. *)
Theorem pollEvents_returns (queue : list SDL_Event) (w : SDL2GameWindow) :
  Forall code_point returned_keycodes ->
  result (pollEvents queue w) = Returned tt
  /\ length (calls_per_event queue w) = length queue.
Proof.
  intros H. revert w.
  induction queue as [| event rest IH]; intros w; [split; reflexivity |].
  rewrite pollEvents_cons. unfold bind. cbn [calls_per_event length].
  rewrite (dispatch_returns event w H). cbn [result].
  destruct (IH (window (dispatch event w))) as [IH1 IH2].
  split; [exact IH1 | now rewrite IH2].
Qed.

(** X7.  Draining two batches one after the other is draining their
    concatenation: same calls in the same order, same final window, same
    completion; an empty queue makes no call. *)
Theorem pollEvents_app (q1 q2 : list SDL_Event) (w : SDL2GameWindow) :
  pollEvents (q1 ++ q2) w = (pollEvents q1 ;; pollEvents q2) w
  /\ calls (pollEvents [] w) = [].
Proof.
  split; [| reflexivity].
  revert w. induction q1 as [| event rest IH]; intros w.
  - cbn [app pollEvents]. unfold bind. cbn. apply eq_sym, run_eta.
  - cbn [app].
    change (pollEvents (event :: rest ++ q2))
      with (dispatch event ;; pollEvents (rest ++ q2)).
    change (pollEvents (event :: rest))
      with (dispatch event ;; pollEvents rest).
    rewrite bind_assoc. apply bind_ext. intros _ w'. apply IH.
Qed.

Lemma dispatch_captured (event : SDL_Event) (w : SDL2GameWindow) :
  captured (window (dispatch event w)) = captured w.
Proof.
  destruct event as [e c | e | e | e | e | e | e | |];
    try (rewrite dispatch_window; [reflexivity | discriminate]).
  cbn [dispatch]. destruct (cdevice_type e) eqn:E.
  - now rewrite handleControllerDeviceEvent_added.
  - rewrite handleControllerDeviceEvent_removed by exact E.
    destruct (count (gamepad w) <? 1); reflexivity.
  - reflexivity.
Qed.

(** X8.  The capture flag and the gamepad counter are independent: no
    event of the loop changes the capture flag, whatever the queue, and
    [setCursorDisabled] leaves the gamepad counter alone, stores its
    argument and asks SDL for the same mode. *)
Theorem capture_flag_changed_by_setCursorDisabled_only
    (queue : list SDL_Event) (disabled : bool) (w : SDL2GameWindow) :
  captured (window (pollEvents queue w)) = captured w
  /\ gamepad (window (setCursorDisabled disabled w)) = gamepad w
  /\ captured (window (setCursorDisabled disabled w)) = disabled
  /\ calls (setCursorDisabled disabled w) = [SDL_CaptureMouse disabled].
Proof.
  split; [| repeat split].
  revert w. induction queue as [| event rest IH]; intros w; [reflexivity |].
  rewrite pollEvents_cons. unfold bind.
  destruct (result (dispatch event w)); cbn [window].
  - rewrite IH. apply dispatch_captured.
  - apply dispatch_captured.
Qed.

End PollLoopFacts.

(** X6 with the virtual-key numbering: every returned key code is a code
    point, and a queue of a Backspace press and a wheel event is handled to
    the end. *)
Lemma virtual_key_loop_returns_witness :
  Forall code_point (returned_keycodes (keys := virtual_key_codes))
  /\ result (pollEvents (keys := virtual_key_codes)
               [key {| key_type := SDL_KEYDOWN; state := SDL_PRESSED;
                       repeat := 0; scancode := SDL_SCANCODE_BACKSPACE |};
                wheel {| wheel_x := 0; wheel_y := 1 |}] new_window)
     = Returned tt.
Proof.
  assert (H : Forall code_point (returned_keycodes (keys := virtual_key_codes))).
  { unfold returned_keycodes, numeric_keycodes, listed_keycodes, code_point.
    cbn [app]. repeat (apply Forall_cons; [cbn; lia |]). apply Forall_nil. }
  split; [exact H |].
  apply (pollEvents_returns (keys := virtual_key_codes)); exact H.
Defined.

(** ** The gamepad callbacks over a run *)

Section GamepadRunFacts.

Context {keys : KeyCode.Enum}.

Lemma gamepad_states_app (l1 l2 : list Call) :
  gamepad_states (l1 ++ l2) = gamepad_states l1 ++ gamepad_states l2.
Proof. apply flat_map_app. Qed.

Lemma gamepad_states_filter (l : list Call) :
  gamepad_states (filter is_onGamepadState l) = gamepad_states l.
Proof.
  induction l as [| c l IH]; [reflexivity |].
  unfold gamepad_states in *.
  destruct c; cbn; try exact IH. now f_equal.
Qed.

Lemma last_cons_default {T : Type} (x d : T) (l : list T) :
  last (x :: l) d = last l x.
Proof.
  revert x d. induction l as [| y l IH]; intros x d; [reflexivity |].
  change (last (x :: y :: l) d) with (last (y :: l) d).
  now rewrite !IH.
Qed.

(** One event either makes no state call and keeps the counter on its side
    of zero, or makes the one state call that says on which side the
    counter now is, having crossed. *)
Lemma dispatch_gamepad_states (event : SDL_Event) (w : SDL2GameWindow) :
  0 <= count (gamepad w) ->
  let connected n := 0 <? n in
  let before := connected (count (gamepad w)) in
  let after := connected (count (gamepad (window (dispatch event w)))) in
  (gamepad_states (calls (dispatch event w)) = [] /\ after = before)
  \/ (gamepad_states (calls (dispatch event w)) = [after]
      /\ after = negb before).
Proof.
  intros H. cbn zeta.
  rewrite <- gamepad_states_filter, dispatch_count. cbn zeta.
  destruct event as [e c | | | | | | | |];
    try (left; split; [| reflexivity];
         rewrite dispatch_other_no_gamepad_state by discriminate;
         reflexivity).
  cbn [dispatch]. destruct (cdevice_type e) eqn:E.
  - rewrite device_event_gamepad_state by exact H. rewrite E.
    destruct (Z.eqb_spec (count (gamepad w)) 0) as [Z0 | Z0].
    + right. rewrite Z0. split; reflexivity.
    + left. split; [reflexivity |].
      destruct (Z.ltb_spec 0 (count (gamepad w) + 1)),
               (Z.ltb_spec 0 (count (gamepad w))); try reflexivity; lia.
  - rewrite device_event_gamepad_state by exact H. rewrite E.
    destruct (Z.eqb_spec (count (gamepad w)) 1) as [Z1 | Z1].
    + right. rewrite Z1. split; reflexivity.
    + left. split; [reflexivity |].
      destruct (Z.ltb_spec (count (gamepad w)) 1);
        destruct (Z.ltb_spec 0 (count (gamepad w) - 1)),
                 (Z.ltb_spec 0 (count (gamepad w))); try reflexivity; lia.
  - left. split; reflexivity.
Qed.

Lemma dispatch_count_nonneg (event : SDL_Event) (w : SDL2GameWindow) :
  0 <= count (gamepad w) -> 0 <= count (gamepad (window (dispatch event w))).
Proof.
  intros H. rewrite dispatch_count. cbn zeta.
  destruct event as [e c | | | | | | | |]; try exact H.
  destruct (cdevice_type e); [lia | | lia].
  destruct (Z.ltb_spec (count (gamepad w)) 1); lia.
Qed.

(** X9.  Over any run of the loop on a window whose counter is not
    negative, the [onGamepadState] calls alternate: the first one says
    connected exactly when no controller was counted before the run, and
    each later one negates the one before it.  The last of them tells
    whether the counter is positive at the end (with no state call, the
    counter is on the side of zero where it started). *)
Theorem gamepad_state_calls_alternate
    (queue : list SDL_Event) (w : SDL2GameWindow) :
  0 <= count (gamepad w) ->
  alternating (count (gamepad w) =? 0)
    (gamepad_states (calls (pollEvents queue w)))
  /\ last (gamepad_states (calls (pollEvents queue w)))
          (0 <? count (gamepad w))
     = (0 <? count (gamepad (window (pollEvents queue w)))).
Proof.
  revert w. induction queue as [| event rest IH]; intros w H.
  - split; [exact I | reflexivity].
  - assert (N : (count (gamepad w) =? 0) = negb (0 <? count (gamepad w))).
    { destruct (Z.eqb_spec (count (gamepad w)) 0),
               (Z.ltb_spec 0 (count (gamepad w))); try reflexivity; lia. }
    pose proof (dispatch_count_nonneg event w H) as H'.
    assert (N' : (count (gamepad (window (dispatch event w))) =? 0)
                 = negb (0 <? count (gamepad (window (dispatch event w))))).
    { destruct (Z.eqb_spec (count (gamepad (window (dispatch event w)))) 0),
               (Z.ltb_spec 0 (count (gamepad (window (dispatch event w)))));
        try reflexivity; lia. }
    destruct (IH (window (dispatch event w)) H') as [IHa IHl].
    pose proof (dispatch_gamepad_states event w H) as D. cbn zeta in D.
    rewrite pollEvents_cons. unfold bind.
    rewrite N. rewrite N' in IHa.
    destruct (result (dispatch event w)); cbn [calls window];
      rewrite ?gamepad_states_app;
      set (b := 0 <? count (gamepad w)) in *;
      set (b' := 0 <? count (gamepad (window (dispatch event w)))) in *;
      set (S := gamepad_states (calls (dispatch event w))) in *;
      set (L := gamepad_states
                  (calls (pollEvents rest (window (dispatch event w))))) in *;
      clearbody b b' S L.
    + destruct D as [[-> ->] | [-> ->]]; cbn [app alternating].
      * split; assumption.
      * split; [split; [reflexivity | exact IHa] |].
        rewrite <- IHl. apply last_cons_default.
    + destruct D as [[-> ->] | [-> ->]]; cbn; tauto.
Qed.

Lemma slot_zero_app (l1 l2 : list Call) :
  Forall (fun c => gamepad_slot c = None \/ gamepad_slot c = Some 0) l1 ->
  Forall (fun c => gamepad_slot c = None \/ gamepad_slot c = Some 0) l2 ->
  Forall (fun c => gamepad_slot c = None \/ gamepad_slot c = Some 0) (l1 ++ l2).
Proof. intros. apply Forall_app. now split. Qed.

Lemma dispatch_slot_zero (event : SDL_Event) (w : SDL2GameWindow) :
  Forall (fun c => gamepad_slot c = None \/ gamepad_slot c = Some 0)
    (calls (dispatch event w)).
Proof.
  destruct event as [e c | e | e | e | e | e | e | |].
  - cbn [dispatch]. destruct (cdevice_type e) eqn:E.
    + rewrite handleControllerDeviceEvent_added by exact E.
      unfold open_report. cbn [calls].
      destruct c, (count (gamepad w) + 1 >? 1);
        repeat (constructor; [cbn; tauto |]); constructor.
    + rewrite handleControllerDeviceEvent_removed by exact E.
      destruct (count (gamepad w) <? 1), (count (gamepad w) - 1 >? 0);
        cbn [calls]; repeat (constructor; [cbn; tauto |]); constructor.
    + constructor.
  - unfold dispatch, handleControllerAxisEvent.
    run_cases; repeat (constructor; [cbn; tauto |]); constructor.
  - unfold dispatch, handleControllerButtonEvent.
    run_cases; repeat (constructor; [cbn; tauto |]); constructor.
  - unfold dispatch, handleMouseMotionEvent.
    run_cases; repeat (constructor; [cbn; tauto |]); constructor.
  - unfold dispatch, handleMouseWheelEvent.
    run_cases; repeat (constructor; [cbn; tauto |]); constructor.
  - cbn. repeat (constructor; [cbn; tauto |]); constructor.
  - unfold dispatch, handleKeyboardEvent, text_switch, text_from_BACKSPACE,
      text_from_DELETE, text_from_ENTER, text_from_LEFT, text_from_default,
      to_bytes.
    destruct (key_type e); run_cases;
      repeat (constructor; [cbn; tauto |]); constructor.
  - cbn. repeat (constructor; [cbn; tauto |]); constructor.
  - constructor.
Qed.

(** X10.  Every gamepad callback of every run names slot 0: the state, axis
    and button calls never carry another slot, whichever controller the
    event comes from. *)
Theorem gamepad_callbacks_slot_zero
    (queue : list SDL_Event) (w : SDL2GameWindow) :
  Forall (fun c => gamepad_slot c = None \/ gamepad_slot c = Some 0)
    (calls (pollEvents queue w)).
Proof.
  revert w. induction queue as [| event rest IH]; intros w; [constructor |].
  rewrite pollEvents_cons. unfold bind.
  destruct (result (dispatch event w)); cbn [calls].
  - apply slot_zero_app; [apply dispatch_slot_zero | apply IH].
  - apply dispatch_slot_zero.
Qed.

End GamepadRunFacts.

(** X9 on a fresh window with three connects and three disconnects, the
    second connect failing to open: connected once, disconnected once. *)
Lemma three_controllers_alternate_witness :
  0 <= count (gamepad new_window)
  /\ gamepad_states
       (calls (pollEvents (keys := virtual_key_codes)
                 [cdevice {| cdevice_type := SDL_CONTROLLERDEVICEADDED;
                             which := 0 |} true;
                  cdevice {| cdevice_type := SDL_CONTROLLERDEVICEADDED;
                             which := 1 |} false;
                  cdevice {| cdevice_type := SDL_CONTROLLERDEVICEREMOVED;
                             which := 0 |} false;
                  cdevice {| cdevice_type := SDL_CONTROLLERDEVICEREMOVED;
                             which := 1 |} false]
                 new_window))
     = [true; false]
  /\ alternating true [true; false].
Proof.
  assert (H : 0 <= count (gamepad new_window)) by (cbn; lia).
  split; [exact H | split; [reflexivity |]].
  apply (proj1 (gamepad_state_calls_alternate (keys := virtual_key_codes)
                  [cdevice {| cdevice_type := SDL_CONTROLLERDEVICEADDED;
                              which := 0 |} true;
                   cdevice {| cdevice_type := SDL_CONTROLLERDEVICEADDED;
                              which := 1 |} false;
                   cdevice {| cdevice_type := SDL_CONTROLLERDEVICEREMOVED;
                              which := 0 |} false;
                   cdevice {| cdevice_type := SDL_CONTROLLERDEVICEREMOVED;
                              which := 1 |} false]
                  new_window H)).
Defined.

(** ** Controller axes and buttons, the vertical wheel *)

Section ControllerInputFacts.

(** X11.  An axis event for one of the six axes SDL numbers 0 .. 5, with a
    value in the [Sint16] range, makes exactly one [onGamepadAxis] call on
    slot 0; the value passed is the raw value over 32768, so it is at least
    -1, stays strictly below 1, and is zero only for a raw zero.  An event
    for any other axis makes no call. *)
Theorem axis_event_normalised
    (e : SDL_ControllerAxisEvent) (w : SDL2GameWindow) :
  (0 <= axis e <= 5 -> -32768 <= axis_value e <= 32767 ->
   (exists id : GamepadAxisId.t,
      calls (handleControllerAxisEvent e w)
      = [onGamepadAxis 0 id (Qmake (axis_value e) 32768)])
   /\ (-1 <= Qmake (axis_value e) 32768)%Q
   /\ (Qmake (axis_value e) 32768 < 1)%Q
   /\ ((Qmake (axis_value e) 32768 == 0)%Q <-> axis_value e = 0))
  /\ (~ 0 <= axis e <= 5 -> calls (handleControllerAxisEvent e w) = []).
Proof.
  split.
  - intros Ha Hv. split; [| split; [| split]].
    + assert (D : axis e = 0 \/ axis e = 1 \/ axis e = 2 \/ axis e = 3
                  \/ axis e = 4 \/ axis e = 5) by lia.
      unfold handleControllerAxisEvent.
      destruct D as [D | [D | [D | [D | [D | D]]]]]; rewrite D; cbn;
        eexists; reflexivity.
    + unfold Qle. cbn. lia.
    + unfold Qlt. cbn. lia.
    + unfold Qeq. cbn. lia.
  - intros H. unfold handleControllerAxisEvent.
    repeat match goal with
    | |- context [axis e =? ?c] =>
        destruct (Z.eqb_spec (axis e) c) as [E | _];
        [exfalso; unfold c in E; lia |]
    end.
    reflexivity.
Qed.

(** X12.  A button event makes a call exactly when the button is one of
    the fifteen SDL numbers 0 .. 14: then it is one [onGamepadButton] call
    on slot 0 whose flag tells whether the state is [SDL_PRESSED], and
    different buttons give different button identifiers; any other button
    is dropped. *)
Theorem button_event_recognised
    (e : SDL_ControllerButtonEvent) (w : SDL2GameWindow) :
  (0 <= cbutton e <= 14 ->
   exists id : GamepadButtonId.t,
     calls (handleControllerButtonEvent e w)
     = [onGamepadButton 0 id (cbutton_state e =? SDL_PRESSED)])
  /\ (~ 0 <= cbutton e <= 14 -> calls (handleControllerButtonEvent e w) = [])
  /\ (forall e' : SDL_ControllerButtonEvent,
        0 <= cbutton e <= 14 -> 0 <= cbutton e' <= 14 ->
        calls (handleControllerButtonEvent e w)
        = calls (handleControllerButtonEvent e' w) ->
        cbutton e = cbutton e').
Proof.
  assert (enum : forall b, 0 <= b <= 14 ->
            b = 0 \/ b = 1 \/ b = 2 \/ b = 3 \/ b = 4 \/ b = 5 \/ b = 6
            \/ b = 7 \/ b = 8 \/ b = 9 \/ b = 10 \/ b = 11 \/ b = 12
            \/ b = 13 \/ b = 14) by (intros; lia).
  split; [| split].
  - intros H. apply enum in H. unfold handleControllerButtonEvent.
    repeat (destruct H as [H | H]); rewrite H; cbn; eexists; reflexivity.
  - intros H. unfold handleControllerButtonEvent.
    repeat match goal with
    | |- context [cbutton e =? ?c] =>
        destruct (Z.eqb_spec (cbutton e) c) as [E | _];
        [exfalso; unfold c in E; lia |]
    end.
    reflexivity.
  - intros e' H H'. apply enum in H. apply enum in H'.
    unfold handleControllerButtonEvent.
    repeat (destruct H as [H | H]); rewrite H; cbn;
      repeat (destruct H' as [H' | H']); rewrite H'; cbn;
      intros E; first [reflexivity | discriminate E].
Qed.

(** X13.  A wheel event with no horizontal deflection and a vertical one
    makes one [onMouseScroll] call whose first two arguments are zero (the
    deflections are not passed on in this case) and whose direction is
    (0, sign of the vertical deflection). *)
Theorem wheel_vertical_only (e : SDL_MouseWheelEvent) (w : SDL2GameWindow) :
  wheel_x e = 0 -> wheel_y e <> 0 ->
  calls (handleMouseWheelEvent e w)
  = [onMouseScroll 0 0 0 (Z.sgn (wheel_y e))]
  /\ window (handleMouseWheelEvent e w) = w.
Proof.
  intros Hx Hy. split; [| apply handleMouseWheelEvent_window].
  rewrite handleMouseWheelEvent_calls, Hx.
  destruct (Z.eqb_spec (wheel_y e) 0); [contradiction | reflexivity].
Qed.

End ControllerInputFacts.

(** X11 at the left trigger fully pressed. *)
Lemma full_trigger_witness :
  0 <= axis {| axis := SDL_CONTROLLER_AXIS_TRIGGERLEFT; axis_value := 32767 |}
  <= 5
  /\ calls (handleControllerAxisEvent
              {| axis := SDL_CONTROLLER_AXIS_TRIGGERLEFT; axis_value := 32767 |}
              new_window)
     = [onGamepadAxis 0 GamepadAxisId.LEFT_TRIGGER (Qmake 32767 32768)]
  /\ (Qmake 32767 32768 < 1)%Q.
Proof.
  assert (Ha : 0 <= axis {| axis := SDL_CONTROLLER_AXIS_TRIGGERLEFT;
                            axis_value := 32767 |} <= 5)
    by (cbn; unfold SDL_CONTROLLER_AXIS_TRIGGERLEFT; lia).
  assert (Hv : -32768 <= axis_value {| axis := SDL_CONTROLLER_AXIS_TRIGGERLEFT;
                                       axis_value := 32767 |} <= 32767)
    by (cbn; lia).
  split; [exact Ha | split; [reflexivity |]].
  apply (proj1 (axis_event_normalised
                  {| axis := SDL_CONTROLLER_AXIS_TRIGGERLEFT;
                     axis_value := 32767 |} new_window) Ha Hv).
Defined.

(** X12 at the guide button and at a button SDL numbers 15. *)
Lemma guide_button_witness :
  0 <= cbutton {| cbutton := SDL_CONTROLLER_BUTTON_GUIDE;
                  cbutton_state := SDL_PRESSED |} <= 14
  /\ calls (handleControllerButtonEvent
              {| cbutton := SDL_CONTROLLER_BUTTON_GUIDE;
                 cbutton_state := SDL_PRESSED |} new_window)
     = [onGamepadButton 0 GamepadButtonId.GUIDE true]
  /\ calls (handleControllerButtonEvent
              {| cbutton := 15; cbutton_state := SDL_PRESSED |} new_window)
     = [].
Proof.
  split; [cbn; unfold SDL_CONTROLLER_BUTTON_GUIDE; lia |].
  split; [reflexivity |].
  apply (proj1 (proj2 (button_event_recognised
                         {| cbutton := 15; cbutton_state := SDL_PRESSED |}
                         new_window))).
  cbn. lia.
Defined.

(** X13 at one notch down. *)
Lemma wheel_down_witness :
  wheel_x {| wheel_x := 0; wheel_y := -1 |} = 0
  /\ wheel_y {| wheel_x := 0; wheel_y := -1 |} <> 0
  /\ calls (handleMouseWheelEvent {| wheel_x := 0; wheel_y := -1 |} new_window)
     = [onMouseScroll 0 0 0 (-1)].
Proof.
  assert (Hy : wheel_y {| wheel_x := 0; wheel_y := -1 |} <> 0) by (cbn; lia).
  split; [reflexivity | split; [exact Hy |]].
  apply (proj1 (wheel_vertical_only {| wheel_x := 0; wheel_y := -1 |}
                  new_window eq_refl Hy)).
Defined.

(** ** The text of a key *)

Section TextFacts.

(** A byte pattern or-ed with a value that fits below it is their sum. *)
Lemma lor_high_low (k m b : Z) :
  0 <= k -> 0 <= b < 2 ^ k -> Z.lor (m * 2 ^ k) b = m * 2 ^ k + b.
Proof.
  intros Hk Hb.
  rewrite <- Z.lxor_lor, <- Z.add_nocarry_lxor; try reflexivity.
  all: apply Z.bits_inj'; intros n Hn; rewrite Z.land_spec, Z.bits_0.
  all: destruct (Z.lt_ge_cases n k) as [L | G].
  all: try (rewrite Z.mul_pow2_bits_low by lia; reflexivity).
  all: destruct (Z.eq_dec b 0) as [-> | Hb0];
    [rewrite Z.bits_0; apply andb_false_r |].
  all: rewrite (Z.bits_above_log2 b n); [apply andb_false_r | lia |].
  all: apply Z.log2_lt_pow2; try lia.
  all: apply Z.lt_le_trans with (2 ^ k); [lia | apply Z.pow_le_mono_r; lia].
Qed.

Lemma continuation_low (c : Z) :
  Z.lor 0x80 (Z.land c 0x3F) = 128 + c mod 64.
Proof.
  change 0x3F with (Z.ones 6). rewrite Z.land_ones by lia.
  change (2 ^ 6) with 64. change 0x80 with (2 * 2 ^ 6).
  rewrite lor_high_low; [reflexivity | lia |].
  change (2 ^ 6) with 64. apply Z.mod_pos_bound. lia.
Qed.

Lemma continuation_mid (c : Z) (n : Z) :
  0 <= n ->
  Z.lor 0x80 (Z.land (Z.shiftr c n) 0x3F) = 128 + (c / 2 ^ n) mod 64.
Proof.
  intros Hn. rewrite continuation_low, Z.shiftr_div_pow2 by exact Hn.
  reflexivity.
Qed.

Lemma lead_byte (m k c n : Z) :
  0 <= k -> 0 <= n -> 0 <= c / 2 ^ n < 2 ^ k ->
  Z.lor (m * 2 ^ k) (Z.shiftr c n) = m * 2 ^ k + c / 2 ^ n.
Proof.
  intros Hk Hn Hc. rewrite Z.shiftr_div_pow2 by exact Hn.
  now apply lor_high_low.
Qed.

(** The bytes [utf8] writes for a code point, in arithmetic. *)
Lemma utf8_arith (c : Z) :
  code_point c ->
  utf8 c =
  if c <? 0x80 then [c]
  else if c <? 0x800 then [192 + c / 64; 128 + c mod 64]
  else if c <? 0x10000 then
    [224 + c / 4096; 128 + (c / 64) mod 64; 128 + c mod 64]
  else [240 + c / 262144; 128 + (c / 4096) mod 64;
        128 + (c / 64) mod 64; 128 + c mod 64].
Proof.
  unfold code_point. intros H. unfold utf8.
  rewrite !continuation_mid by lia. rewrite !continuation_low.
  change (2 ^ 6) with 64. change (2 ^ 12) with 4096.
  destruct (Z.ltb_spec c 0x80); [reflexivity |].
  destruct (Z.ltb_spec c 0x800).
  { change 0xC0 with (3 * 2 ^ 6). rewrite lead_byte; try lia.
    - reflexivity.
    - change (2 ^ 6) with 64. Z.div_mod_to_equations. lia. }
  destruct (Z.ltb_spec c 0x10000).
  { change 0xE0 with (7 * 2 ^ 5). rewrite lead_byte; try lia.
    - reflexivity.
    - change (2 ^ 12) with 4096. change (2 ^ 5) with 32.
      Z.div_mod_to_equations. lia. }
  change 0xF0 with (15 * 2 ^ 4). rewrite lead_byte; try lia.
  - reflexivity.
  - change (2 ^ 18) with 262144. change (2 ^ 4) with 16.
    Z.div_mod_to_equations. lia.
Qed.

Lemma scalar_value_code_point (c : Z) :
  scalar_value c = true <-> code_point c.
Proof.
  unfold scalar_value, code_point.
  rewrite orb_true_iff, !andb_true_iff, !Z.leb_le. lia.
Qed.

(** What [utf8] writes for a code point, the strict reader reads back. *)
Lemma utf8_round_trip (c : Z) :
  code_point c -> utf8_decode (utf8 c) = Some c.
Proof.
  intros H. pose proof (proj2 (scalar_value_code_point c) H) as S.
  assert (R : 0 <= c <= 0x10FFFF) by (unfold code_point in H; lia).
  rewrite utf8_arith by exact H.
  destruct (Z.ltb_spec c 0x80).
  { cbn [utf8_decode].
    destruct (Z.leb_spec 0 c); [| lia].
    destruct (Z.leb_spec c 0x7F); [reflexivity | lia]. }
  destruct (Z.ltb_spec c 0x800).
  { cbn [utf8_decode]. cbn zeta.
    replace ((192 + c / 64 - 0xC0) * 64 + (128 + c mod 64 - 0x80)) with c
      by (Z.div_mod_to_equations; lia).
    unfold continuation.
    repeat match goal with
    | |- context [?a <=? ?b] =>
        destruct (Z.leb_spec a b);
        [| exfalso; Z.div_mod_to_equations; lia]
    end.
    reflexivity. }
  destruct (Z.ltb_spec c 0x10000).
  { cbn [utf8_decode]. cbn zeta.
    replace ((224 + c / 4096 - 0xE0) * 4096
             + (128 + (c / 64) mod 64 - 0x80) * 64
             + (128 + c mod 64 - 0x80)) with c
      by (Z.div_mod_to_equations; lia).
    rewrite S. unfold continuation.
    repeat match goal with
    | |- context [?a <=? ?b] =>
        destruct (Z.leb_spec a b);
        [| exfalso; Z.div_mod_to_equations; lia]
    end.
    reflexivity. }
  cbn [utf8_decode]. cbn zeta.
  replace ((240 + c / 262144 - 0xF0) * 262144
           + (128 + (c / 4096) mod 64 - 0x80) * 4096
           + (128 + (c / 64) mod 64 - 0x80) * 64
           + (128 + c mod 64 - 0x80)) with c
    by (Z.div_mod_to_equations; lia).
  unfold continuation.
  repeat match goal with
  | |- context [?a <=? ?b] =>
      destruct (Z.leb_spec a b);
      [| exfalso; Z.div_mod_to_equations; lia]
  end.
  reflexivity.
Qed.

(** The strict reader accepts nothing but what [utf8] writes for a code
    point: an accepted sequence is the encoding of the value read. *)
Lemma utf8_decode_canonical (bytes : list Z) (c : Z) :
  utf8_decode bytes = Some c -> code_point c /\ utf8 c = bytes.
Proof.
  intros H.
  destruct bytes as [| b0 [| b1 [| b2 [| b3 [| b4 rest]]]]];
    try discriminate H; cbn [utf8_decode] in H; cbn zeta in H;
    match type of H with
    | (if ?t then _ else _) = _ => destruct t eqn:T; [| discriminate H]
    end;
    injection H as H;
    unfold continuation in T;
    rewrite ?andb_true_iff, ?Z.leb_le in T;
    try (assert (S : code_point c)
           by (apply scalar_value_code_point; rewrite <- H; tauto)).
  - assert (S : code_point c) by (unfold code_point; lia).
    split; [exact S |]. rewrite utf8_arith by exact S.
    destruct (Z.ltb_spec c 0x80); [now subst | lia].
  - assert (S : code_point c) by (unfold code_point; lia).
    split; [exact S |]. rewrite utf8_arith by exact S.
    destruct (Z.ltb_spec c 0x80); [lia |].
    destruct (Z.ltb_spec c 0x800); [| lia].
    f_equal; [| f_equal]; Z.div_mod_to_equations; lia.
  - split; [exact S |]. rewrite utf8_arith by exact S.
    destruct (Z.ltb_spec c 0x80); [lia |].
    destruct (Z.ltb_spec c 0x800); [lia |].
    destruct (Z.ltb_spec c 0x10000); [| lia].
    f_equal; [| f_equal; [| f_equal]]; Z.div_mod_to_equations; lia.
  - assert (S : code_point c) by (unfold code_point; lia).
    split; [exact S |]. rewrite utf8_arith by exact S.
    destruct (Z.ltb_spec c 0x80); [lia |].
    destruct (Z.ltb_spec c 0x800); [lia |].
    destruct (Z.ltb_spec c 0x10000); [lia |].
    f_equal; [| f_equal; [| f_equal; [| f_equal]]];
      Z.div_mod_to_equations; lia.
Qed.

(** The strict reader refuses an overlong form, a surrogate and a value
    above 0x10FFFF. *)
Lemma utf8_decode_refuses_ill_formed :
  utf8_decode [0xC0; 0x80] = None
  /\ utf8_decode [0xED; 0xA0; 0x80] = None
  /\ utf8_decode [0xF7; 0xBF; 0xBF; 0xBF] = None.
Proof. repeat split; reflexivity. Qed.

End TextFacts.

Section KeyTextFacts.

Context {keys : KeyCode.Enum}.

Lemma to_bytes_code_point (c : Z) :
  code_point c -> to_bytes c = ret (utf8 c).
Proof.
  unfold code_point, to_bytes. intros H. cbv zeta.
  rewrite Z.mod_small by lia.
  destruct (Z.leb_spec c 0x10FFFF); [reflexivity | lia].
Qed.

(** The texts of the switch entered with a key whose code converts to [t]:
    some of the four control bytes, then [t]. *)
Lemma text_switch_texts (k : KeyCode) (w : SDL2GameWindow) :
  code_point k ->
  Forall (fun text => exists cp, utf8_decode text = Some cp /\ code_point cp)
    (keyboard_texts (calls (text_switch k w)))
  /\ last (keyboard_texts (calls (text_switch k w))) [] = utf8 k
  /\ result (text_switch k w) = Returned tt.
Proof.
  intros H. pose proof (utf8_round_trip k H) as R.
  unfold text_switch, text_from_BACKSPACE, text_from_DELETE, text_from_ENTER,
    text_from_LEFT, text_from_default.
  rewrite (to_bytes_code_point k H).
  remember (utf8 k) as t eqn:Et. clear Et.
  assert (C : forall b, 0 <= b <= 0x7F ->
                exists cp, utf8_decode [b] = Some cp /\ code_point cp).
  { intros b Hb. exists b. cbn [utf8_decode].
    destruct (Z.leb_spec 0 b); [| lia].
    destruct (Z.leb_spec b 0x7F); [| lia].
    split; [reflexivity | unfold code_point; lia]. }
  run_cases;
    (split; [| split; reflexivity]);
    repeat (apply Forall_cons; [first [apply C; lia | now exists k] |]);
    apply Forall_nil.
Qed.

(** X14.  When the key code of a keyboard event is a Unicode scalar value,
    every text the handler delivers is one well-formed UTF-8 sequence (the
    strict reader accepts it and reads a scalar value); on a press that is
    not a repeat the last text delivered is the encoding of the key code,
    which reads back as the key code. *)
Theorem key_texts_well_formed_utf8
    (e : SDL_KeyboardEvent) (w : SDL2GameWindow) :
  code_point (getKeyMinecraft (scancode e)) ->
  Forall (fun text => exists cp, utf8_decode text = Some cp /\ code_point cp)
    (keyboard_texts (calls (handleKeyboardEvent e w)))
  /\ (repeat e = 0 -> state e = SDL_PRESSED ->
      last (keyboard_texts (calls (handleKeyboardEvent e w))) []
      = utf8 (getKeyMinecraft (scancode e))
      /\ utf8_decode (utf8 (getKeyMinecraft (scancode e)))
         = Some (getKeyMinecraft (scancode e))).
Proof.
  intros H.
  destruct (text_switch_texts (getKeyMinecraft (scancode e)) w H)
    as [F [L R]].
  assert (T : keyboard_texts
                (calls ((text_switch (getKeyMinecraft (scancode e)) ;;
                         call (onKeyboard (getKeyMinecraft (scancode e))
                                 KeyAction.PRESS)) w))
              = keyboard_texts
                  (calls (text_switch (getKeyMinecraft (scancode e)) w))).
  { unfold bind. rewrite R. cbn [calls]. unfold keyboard_texts.
    rewrite flat_map_app. cbn. apply app_nil_r. }
  split.
  - unfold handleKeyboardEvent.
    destruct (negb (repeat e =? 0)); cbv beta iota zeta; [constructor |].
    destruct (state e =? SDL_PRESSED); cbv beta iota zeta;
      [exact (eq_ind_r (Forall _) F T) |].
    destruct (state e =? SDL_RELEASED); constructor.
  - intros Hr Hs. unfold handleKeyboardEvent. rewrite Hr, Hs.
    cbn [Z.eqb negb]. cbv beta iota zeta.
    split; [| now apply utf8_round_trip].
    exact (eq_trans (f_equal (fun l => last l []) T) L).
Qed.

End KeyTextFacts.

(** X14 at a press of Backspace with the virtual-key numbering: five texts
    are delivered, each a well-formed sequence, the last reads back as the
    key code 8. *)
Lemma backspace_texts_well_formed_witness :
  code_point
    (getKeyMinecraft (keys := virtual_key_codes) SDL_SCANCODE_BACKSPACE)
  /\ keyboard_texts
       (calls (handleKeyboardEvent (keys := virtual_key_codes)
                 {| key_type := SDL_KEYDOWN; state := SDL_PRESSED;
                    repeat := 0; scancode := SDL_SCANCODE_BACKSPACE |}
                 new_window))
     = [[0x08]; [0x7F]; [0x0A]; [0x1B]; [0x08]]
  /\ Forall (fun text => exists cp,
               utf8_decode text = Some cp /\ code_point cp)
       (keyboard_texts
          (calls (handleKeyboardEvent (keys := virtual_key_codes)
                    {| key_type := SDL_KEYDOWN; state := SDL_PRESSED;
                       repeat := 0; scancode := SDL_SCANCODE_BACKSPACE |}
                    new_window))).
Proof.
  assert (H : code_point
                (getKeyMinecraft (keys := virtual_key_codes)
                   SDL_SCANCODE_BACKSPACE)).
  { unfold code_point. cbn. lia. }
  split; [exact H | split; [reflexivity |]].
  apply (proj1 (key_texts_well_formed_utf8 (keys := virtual_key_codes)
                  {| key_type := SDL_KEYDOWN; state := SDL_PRESSED;
                     repeat := 0; scancode := SDL_SCANCODE_BACKSPACE |}
                  new_window H)).
Defined.

(** ** The keyboard properties at concrete events *)

(** X2 at the release of the letter A: one key call, no text. *)
Lemma letter_release_witness :
  (repeat {| key_type := SDL_KEYUP; state := SDL_RELEASED; repeat := 0;
             scancode := SDL_SCANCODE_A |} <> 0
   \/ state {| key_type := SDL_KEYUP; state := SDL_RELEASED; repeat := 0;
               scancode := SDL_SCANCODE_A |} <> SDL_PRESSED)
  /\ calls (handleKeyboardEvent (keys := virtual_key_codes)
              {| key_type := SDL_KEYUP; state := SDL_RELEASED; repeat := 0;
                 scancode := SDL_SCANCODE_A |} new_window)
     = [onKeyboard 65 KeyAction.RELEASE]
  /\ filter is_onKeyboardText
       (calls (handleKeyboardEvent (keys := virtual_key_codes)
                 {| key_type := SDL_KEYUP; state := SDL_RELEASED; repeat := 0;
                    scancode := SDL_SCANCODE_A |} new_window))
     = [].
Proof.
  assert (H : repeat {| key_type := SDL_KEYUP; state := SDL_RELEASED;
                        repeat := 0; scancode := SDL_SCANCODE_A |} <> 0
              \/ state {| key_type := SDL_KEYUP; state := SDL_RELEASED;
                          repeat := 0; scancode := SDL_SCANCODE_A |}
                 <> SDL_PRESSED).
  { right. cbn. unfold SDL_RELEASED, SDL_PRESSED. lia. }
  split; [exact H | split; [reflexivity |]].
  apply (proj2 (proj2 (keyboard_event_one_key_call_text_on_press_only
                         (keys := virtual_key_codes)
                         {| key_type := SDL_KEYUP; state := SDL_RELEASED;
                            repeat := 0; scancode := SDL_SCANCODE_A |}
                         new_window)) H).
Defined.

(** X3 at a press of the space bar with the virtual-key numbering. *)
Lemma space_press_witness :
  code_point (getKeyMinecraft (keys := virtual_key_codes) SDL_SCANCODE_SPACE)
  /\ calls (handleKeyboardEvent (keys := virtual_key_codes)
              {| key_type := SDL_KEYDOWN; state := SDL_PRESSED; repeat := 0;
                 scancode := SDL_SCANCODE_SPACE |} new_window)
     = [onKeyboardText [32]; onKeyboard 32 KeyAction.PRESS].
Proof.
  assert (H : code_point
                (getKeyMinecraft (keys := virtual_key_codes)
                   SDL_SCANCODE_SPACE)).
  { unfold code_point. cbn. lia. }
  split; [exact H |].
  apply (plain_press_one_text_then_key (keys := virtual_key_codes)
           {| key_type := SDL_KEYDOWN; state := SDL_PRESSED; repeat := 0;
              scancode := SDL_SCANCODE_SPACE |} new_window eq_refl eq_refl);
    [| exact H].
  cbn. intros [F | [F | [F | [F | []]]]]; discriminate F.
Defined.

(** X4 at a press of the letter Q with the virtual-key numbering. *)
Lemma letter_q_press_witness :
  letter_scancode 20
  /\ calls (handleKeyboardEvent (keys := virtual_key_codes)
              {| key_type := SDL_KEYDOWN; state := SDL_PRESSED; repeat := 0;
                 scancode := 20 |} new_window)
     = [onKeyboardText [81]; onKeyboard 81 KeyAction.PRESS].
Proof.
  assert (H : letter_scancode 20).
  { unfold letter_scancode, SDL_SCANCODE_A, SDL_SCANCODE_Z. lia. }
  split; [exact H |].
  apply (letter_press_delivers_ascii_letter (keys := virtual_key_codes)
           {| key_type := SDL_KEYDOWN; state := SDL_PRESSED; repeat := 0;
              scancode := 20 |} new_window H eq_refl eq_refl).
  repeat (apply Forall_cons; [cbn; lia |]). apply Forall_nil.
Defined.

(** X5 at an auto-repeat of the letter A: the repeat is reported twice. *)
Lemma repeat_doubled_witness :
  result (handleKeyboardEvent (keys := virtual_key_codes)
            {| key_type := SDL_KEYDOWN; state := SDL_PRESSED; repeat := 1;
               scancode := SDL_SCANCODE_A |} new_window)
  = Returned tt
  /\ calls (dispatch (keys := virtual_key_codes)
              (key {| key_type := SDL_KEYDOWN; state := SDL_PRESSED;
                      repeat := 1; scancode := SDL_SCANCODE_A |}) new_window)
     = [onKeyboard 65 KeyAction.REPEAT; onKeyboard 65 KeyAction.REPEAT].
Proof.
  split; [reflexivity |].
  apply (proj1 (key_down_calls_doubled (keys := virtual_key_codes)
                  {| key_type := SDL_KEYDOWN; state := SDL_PRESSED;
                     repeat := 1; scancode := SDL_SCANCODE_A |}
                  new_window eq_refl eq_refl)).
Defined.

(** X15 at a queue of two connects on a fresh window. *)
Lemma two_connects_fit_witness :
  Z.of_nat (length [cdevice {| cdevice_type := SDL_CONTROLLERDEVICEADDED;
                               which := 0 |} true;
                    cdevice {| cdevice_type := SDL_CONTROLLERDEVICEADDED;
                               which := 1 |} true]) <= INT_MAX
  /\ count (gamepad (window (pollEvents (keys := virtual_key_codes)
               [cdevice {| cdevice_type := SDL_CONTROLLERDEVICEADDED;
                           which := 0 |} true;
                cdevice {| cdevice_type := SDL_CONTROLLERDEVICEADDED;
                           which := 1 |} true] new_window)))
     <= INT_MAX.
Proof.
  assert (H : Z.of_nat
                (length [cdevice {| cdevice_type := SDL_CONTROLLERDEVICEADDED;
                                    which := 0 |} true;
                         cdevice {| cdevice_type := SDL_CONTROLLERDEVICEADDED;
                                    which := 1 |} true]) <= INT_MAX).
  { cbn. unfold INT_MAX. lia. }
  split; [exact H |].
  apply (proj2 (count_fits_int (keys := virtual_key_codes)
                  [cdevice {| cdevice_type := SDL_CONTROLLERDEVICEADDED;
                              which := 0 |} true;
                   cdevice {| cdevice_type := SDL_CONTROLLERDEVICEADDED;
                              which := 1 |} true] H)).
Defined.
